(** * The AI relay server (server.js): request handlers and their contract

    A shallow embedding of the six Express handlers of [server.js].  A handler
    is a program over four kinds of effect: a generation call to the external
    provider ([model.generateContent] followed by [response.text()]), a console
    message, a timer, and the sending of the JSON response.  Programs are run
    against an arbitrary provider, and the run yields the ordered list of the
    effects that took place. *)

From Stdlib Require Import List String Ascii NArith Bool Lia.
From Stdlib Require Import DecimalString.
Import ListNotations.

Set Implicit Arguments.
Set Warnings "-register-all".

(** ** JavaScript strings

    A JavaScript string is a sequence of UTF-16 code units. *)

Definition jsstring := list N.

Definition code_unit (c : ascii) : N := N_of_ascii c.

Fixpoint lit (s : string) : jsstring :=
  match s with
  | EmptyString => []
  | String c rest => code_unit c :: lit rest
  end.

(** The line feed written [\n] in the templates, and the double quote. *)
Definition LF : N := 10%N.
Definition DQUOTE : N := 34%N.

Fixpoint jsstring_eqb (a b : jsstring) : bool :=
  match a, b with
  | [], [] => true
  | x :: a', y :: b' => N.eqb x y && jsstring_eqb a' b'
  | _, _ => false
  end.

(** [String.prototype.trim] removes the WhiteSpace and LineTerminator code
    points of ECMAScript from both ends. *)
Definition is_whitespace (c : N) : bool :=
  (N.leb 9 c && N.leb c 13)
  || N.eqb c 32 || N.eqb c 160 || N.eqb c 5760
  || (N.leb 8192 c && N.leb c 8202)
  || N.eqb c 8232 || N.eqb c 8233 || N.eqb c 8239 || N.eqb c 8287
  || N.eqb c 12288 || N.eqb c 65279.

Fixpoint trim_start (s : jsstring) : jsstring :=
  match s with
  | [] => []
  | c :: rest => if is_whitespace c then trim_start rest else s
  end.

Definition trim_end (s : jsstring) : jsstring := rev (trim_start (rev s)).

Definition trim (s : jsstring) : jsstring := trim_end (trim_start s).

(** ** The engine

    JSON numbers are IEEE doubles of the JavaScript engine.  The handlers use
    two operations on them, truthiness and conversion to a string, and they
    observe the message of the TypeError the engine raises when an object has
    no primitive value.  These belong to the engine, not to [server.js]. *)

Class Engine : Type := {
  num : Type;
  num_to_boolean : num -> bool;
  num_to_string : num -> jsstring;
  to_primitive_message : jsstring
}.

Section Server.

Context {engine : Engine}.

(** ** JSON values, as [express.json()] hands them over

    The properties of an object are kept in the order of the JSON text; when a
    key occurs twice the later occurrence is the one [JSON.parse] keeps. *)

Inductive json : Type :=
| JNull
| JBool (b : bool)
| JNum (n : num)
| JStr (s : jsstring)
| JArr (items : list json)
| JObj (props : list (jsstring * json)).

(** A JavaScript value read from the body: [None] is [undefined]. *)
Definition value := option json.

Fixpoint own_property (props : list (jsstring * json)) (key : jsstring) : value :=
  match props with
  | [] => None
  | (k, v) :: rest =>
      match own_property rest key with
      | Some later => Some later
      | None => if jsstring_eqb k key then Some v else None
      end
  end.

(** ToBoolean *)
Definition to_boolean (v : value) : bool :=
  match v with
  | None => false
  | Some JNull => false
  | Some (JBool b) => b
  | Some (JNum n) => num_to_boolean n
  | Some (JStr s) => match s with [] => false | _ => true end
  | Some (JArr _) => true
  | Some (JObj _) => true
  end.

(** [v === 'literal'] *)
Definition strict_equals (v : value) (s : jsstring) : bool :=
  match v with
  | Some (JStr t) => jsstring_eqb t s
  | _ => false
  end.

(** An exception: an object with a [message] and possibly a [response]
    property; [err_response = None] when the property is undefined. *)
Record js_error : Type := {
  err_message : jsstring;
  err_response : value
}.

Definition type_error : js_error :=
  {| err_message := to_primitive_message; err_response := None |}.

(** ToString of a parsed JSON value.  An array is joined with commas, its
    [null] elements contributing the empty string.  A plain object yields
    [[object Object]] through [Object.prototype.toString], unless it has an own
    property [toString]: a JSON value is never callable, so neither that
    property nor [valueOf] gives a primitive and the conversion throws. *)
Fixpoint json_to_string (v : json) : js_error + jsstring :=
  match v with
  | JNull => inr (lit "null")
  | JBool true => inr (lit "true")
  | JBool false => inr (lit "false")
  | JNum n => inr (num_to_string n)
  | JStr s => inr s
  | JArr items =>
      (fix join (l : list json) : js_error + jsstring :=
         match l with
         | [] => inr []
         | x :: rest =>
             match (match x with JNull => inr [] | _ => json_to_string x end) with
             | inl e => inl e
             | inr s =>
                 match rest with
                 | [] => inr s
                 | _ => match join rest with
                        | inl e => inl e
                        | inr r => inr (s ++ lit "," ++ r)
                        end
                 end
             end
         end) items
  | JObj props =>
      match own_property props (lit "toString") with
      | Some _ => inl type_error
      | None => inr (lit "[object Object]")
      end
  end.

Definition to_string (v : value) : js_error + jsstring :=
  match v with
  | None => inr (lit "undefined")
  | Some j => json_to_string j
  end.

(** ** The request body

    With [express.json()] in its default strict mode the parsed body is an
    object or an array, and [{}] when nothing was parsed.  The handlers read
    twelve property names from it; none of them is an index, [length] or an
    inherited member, so on an array every one of them is [undefined]. *)

Inductive body : Type :=
| ObjectBody (props : list (jsstring * json))
| ArrayBody (items : list json).

Inductive field_name : Type :=
| text | fromLang | toLang | summaryType
| imageData | imageMimeType | audioData
| existingSummary | role | experienceLevel
| currentSkills | jobDescriptionKeywords.

Definition field_key (f : field_name) : jsstring :=
  match f with
  | text => lit "text"
  | fromLang => lit "fromLang"
  | toLang => lit "toLang"
  | summaryType => lit "summaryType"
  | imageData => lit "imageData"
  | imageMimeType => lit "imageMimeType"
  | audioData => lit "audioData"
  | existingSummary => lit "existingSummary"
  | role => lit "role"
  | experienceLevel => lit "experienceLevel"
  | currentSkills => lit "currentSkills"
  | jobDescriptionKeywords => lit "jobDescriptionKeywords"
  end.

Definition field (b : body) (f : field_name) : value :=
  match b with
  | ObjectBody props => own_property props (field_key f)
  | ArrayBody _ => None
  end.

(** [error.response && error.response.data], as a condition. *)
Definition has_response_data (e : js_error) : bool :=
  match err_response e with
  | Some (JObj props) => to_boolean (own_property props (lit "data"))
  | _ => false
  end.

(** ** Effects and programs *)

(** What is handed to [generateContent]: a prompt string, or an array of a
    prompt and inline data. *)
Inductive part : Type :=
| PText (s : jsstring)
| PInlineData (data : value) (mimeType : value).

Inductive content : Type :=
| CString (prompt : jsstring)
| CParts (parts : list part).

(** The result of one generation: [generateContent] and [response.text()]
    either give the raw text or throw. *)
Definition outcome : Type := js_error + jsstring.

Inductive level : Type := LError | LWarn.

Definition payload : Type := list (jsstring * json).

Inductive event : Type :=
| Generated (model : jsstring) (c : content) (out : outcome)
| Logged (lvl : level) (label : jsstring)
| Waited (ms : N)
| Sent (status : N) (p : payload).

Inductive prog (A : Type) : Type :=
| Ret (a : A)
| Throw (e : js_error)
| GenerateContent (model : jsstring) (c : content) (k : outcome -> prog A)
| Log (lvl : level) (label : jsstring) (k : prog A)
| SetTimeout (ms : N) (k : prog A)
| Send (status : N) (p : payload) (k : prog A).

Arguments Ret {A} a.
Arguments Throw {A} e.

Fixpoint bind {A B : Type} (c : prog A) (f : A -> prog B) : prog B :=
  match c with
  | Ret a => f a
  | Throw e => Throw e
  | GenerateContent m x k => GenerateContent m x (fun o => bind (k o) f)
  | Log l s k => Log l s (bind k f)
  | SetTimeout ms k => SetTimeout ms (bind k f)
  | Send st p k => Send st p (bind k f)
  end.

(** [try { c } catch (error) { h error }] *)
Fixpoint try_catch {A : Type} (c : prog A) (h : js_error -> prog A) : prog A :=
  match c with
  | Ret a => Ret a
  | Throw e => h e
  | GenerateContent m x k => GenerateContent m x (fun o => try_catch (k o) h)
  | Log l s k => Log l s (try_catch k h)
  | SetTimeout ms k => SetTimeout ms (try_catch k h)
  | Send st p k => Send st p (try_catch k h)
  end.

Notation "x <- c ;; k" := (bind c (fun x => k))
  (at level 61, c at next level, right associativity).
Notation "c ;; k" := (bind c (fun _ => k))
  (at level 61, right associativity).

(** [await model.generateContent(c, ...)] followed by [response.text()]. *)
Definition generate (model : jsstring) (c : content) : prog jsstring :=
  GenerateContent model c
    (fun o => match o with inl e => Throw e | inr raw => Ret raw end).

Definition console_error (label : jsstring) : prog unit :=
  Log LError label (Ret tt).

Definition console_warn (label : jsstring) : prog unit :=
  Log LWarn label (Ret tt).

Definition sleep (ms : N) : prog unit := SetTimeout ms (Ret tt).

(** [res.status(st).json(p)]; [res.json(p)] is [respond 200 p]. *)
Definition respond (st : N) (p : payload) : prog unit := Send st p (Ret tt).

(** Template literals: literal chunks and substitutions, converted with
    ToString from left to right. *)
Inductive piece : Type :=
| Lit (s : jsstring)
| Sub (v : value).

Fixpoint render (ps : list piece) : js_error + jsstring :=
  match ps with
  | [] => inr []
  | Lit s :: rest =>
      match render rest with
      | inl e => inl e
      | inr r => inr (s ++ r)
      end
  | Sub v :: rest =>
      match to_string v with
      | inl e => inl e
      | inr s =>
          match render rest with
          | inl e => inl e
          | inr r => inr (s ++ r)
          end
      end
  end.

Definition template (ps : list piece) : prog jsstring :=
  match render ps with
  | inl e => Throw e
  | inr s => Ret s
  end.

(** ** Constants of [server.js]

    Every generation call passes the same [generationConfig] and
    [safetySettings]; they are constants of the module and are left out of the
    recorded call. *)

Definition TEXT_MODEL_NAME : jsstring := lit "gemini-1.5-flash".
Definition VISION_MODEL_NAME : jsstring := lit "gemini-1.5-flash-001".

(** ** The handlers *)

(** 1. [app.post('/api/translate')] *)
Definition translate_template (b : body) : list piece :=
  [ Lit (lit "Translate the following text from "); Sub (field b fromLang);
    Lit (lit " to "); Sub (field b toLang);
    Lit (lit ". Only provide the translated text, nothing else." ++ [LF]
           ++ lit "Text: " ++ [DQUOTE]);
    Sub (field b text); Lit [DQUOTE] ].

Definition translate (b : body) : prog unit :=
  if negb (to_boolean (field b text)) || negb (to_boolean (field b fromLang))
     || negb (to_boolean (field b toLang))
  then respond 400 [(lit "error", JStr (lit "Missing text, fromLang, or toLang in request."))]
  else
    try_catch
      (prompt <- template (translate_template b) ;;
       raw <- generate TEXT_MODEL_NAME (CString prompt) ;;
       let translatedText := trim raw in
       respond 200 [(lit "translatedText", JStr translatedText)])
      (fun error =>
         console_error (lit "Error translating text:") ;;
         (if has_response_data error
          then console_error (lit "Gemini API Error details:") else Ret tt) ;;
         respond 500
           [(lit "error", JStr (lit "Failed to translate text. Please check your API key and input."));
            (lit "details", JStr (err_message error))]).

(** 2. [app.post('/api/summarize')] *)
Definition text_tail (b : body) : list piece :=
  [ Lit ([LF] ++ lit "Text: " ++ [DQUOTE]); Sub (field b text); Lit [DQUOTE] ].

Definition summarize_template (b : body) : list piece :=
  let ty := field b summaryType in
  if strict_equals ty (lit "brief") then
    Lit (lit "Provide a very brief, 1-2 sentence summary of the following text. Only the summary.")
    :: text_tail b
  else if strict_equals ty (lit "detailed") then
    Lit (lit "Provide a detailed, 3-5 sentence summary of the following text. Only the summary.")
    :: text_tail b
  else if strict_equals ty (lit "bullets") then
    Lit (lit "Summarize the following text into 3-5 key bullet points. Only the bullet points.")
    :: text_tail b
  else if strict_equals ty (lit "key") then
    Lit (lit "Extract the absolute 3-5 most important key points from the following text as a numbered list. Only the numbered list.")
    :: text_tail b
  else
    Lit (lit "Summarize the following text. Only the summary.") :: text_tail b.

Definition key_points_template (b : body) : list piece :=
  [ Lit (lit "Extract 3-5 key takeaways from the following text as bullet points:"
           ++ [LF] ++ [DQUOTE]);
    Sub (field b text); Lit [DQUOTE] ].

Definition summarize (b : body) : prog unit :=
  if negb (to_boolean (field b text)) || negb (to_boolean (field b summaryType))
  then respond 400 [(lit "error", JStr (lit "Missing text or summaryType in request."))]
  else
    prompt <- template (summarize_template b) ;;
    try_catch
      (raw <- generate TEXT_MODEL_NAME (CString prompt) ;;
       let summary := trim raw in
       keyPoints <-
         (if strict_equals (field b summaryType) (lit "bullets")
             || strict_equals (field b summaryType) (lit "key")
          then Ret summary
          else
            keyPointsPrompt <- template (key_points_template b) ;;
            keyPointsRaw <- generate TEXT_MODEL_NAME (CString keyPointsPrompt) ;;
            Ret (trim keyPointsRaw)) ;;
       respond 200 [(lit "summary", JStr summary); (lit "keyPoints", JStr keyPoints)])
      (fun error =>
         console_error (lit "Error summarizing text:") ;;
         (if has_response_data error
          then console_error (lit "Gemini API Error details:") else Ret tt) ;;
         respond 500
           [(lit "error", JStr (lit "Failed to summarize text. Please check your API key and input."));
            (lit "details", JStr (err_message error))]).

(** 3. [app.post('/api/analyze-image')] *)
Definition image_prompt : jsstring :=
  lit "Describe this image in detail, including objects, actions, and overall context. Keep the description concise, 2-3 sentences.".

Definition imageToGenerativePart (base64String mimeType : value) : part :=
  PInlineData base64String mimeType.

(** [a || 'literal'] *)
Definition or_default (a : value) (d : jsstring) : value :=
  if to_boolean a then a else Some (JStr d).

Definition analyze_image (b : body) : prog unit :=
  if negb (to_boolean (field b imageData))
  then respond 400 [(lit "error", JStr (lit "Missing image data in request."))]
  else
    try_catch
      (let mimeType := or_default (field b imageMimeType) (lit "image/jpeg") in
       let imagePart := imageToGenerativePart (field b imageData) mimeType in
       raw <- generate VISION_MODEL_NAME (CParts [PText image_prompt; imagePart]) ;;
       let description := trim raw in
       respond 200 [(lit "description", JStr description)])
      (fun error =>
         console_error (lit "Error analyzing image:") ;;
         (if has_response_data error
          then console_error (lit "Gemini API Error details:") else Ret tt) ;;
         respond 500
           [(lit "error", JStr (lit "Failed to analyze image. Please ensure your API key is correct and the image is valid."));
            (lit "details", JStr (err_message error))]).

(** 4. [app.post('/api/analyze-audio')] *)
Definition transcription : jsstring :=
  lit "This is a simulated transcription of your audio. For real transcription, consider using a dedicated Speech-to-Text API.".

Definition emotion : jsstring :=
  lit "Simulated emotion: Neutral, with hints of curiosity. (Real emotion analysis would be derived from the transcribed text using a language model).".

Definition analyze_audio (b : body) : prog unit :=
  (if negb (to_boolean (field b audioData))
   then console_warn (lit "Received audio analysis request without audio data (likely from placeholder recording).")
   else Ret tt) ;;
  try_catch
    (sleep 2500 ;;
     respond 200 [(lit "transcription", JStr transcription); (lit "emotion", JStr emotion)])
    (fun error =>
       console_error (lit "Error analyzing audio (simulated):") ;;
       respond 500
         [(lit "error", JStr (lit "Failed to analyze audio (simulated)."));
          (lit "details", JStr (err_message error))]).

(** 5. [app.post('/api/resume/generate-summary')] *)
Definition generate_summary_template (b : body) : list piece :=
  [ Lit (lit "Generate a concise, impactful professional summary for a ");
    Sub (field b role); Lit (lit " with "); Sub (field b experienceLevel);
    Lit (lit " experience. Incorporate this existing information: " ++ [DQUOTE]);
    Sub (field b existingSummary);
    Lit ([DQUOTE] ++ lit ". Focus on achievements and relevant skills. Keep it to 3-5 sentences.") ].

Definition generate_summary (b : body) : prog unit :=
  prompt <- template (generate_summary_template b) ;;
  try_catch
    (raw <- generate TEXT_MODEL_NAME (CString prompt) ;;
     let generatedSummary := trim raw in
     respond 200 [(lit "generatedSummary", JStr generatedSummary)])
    (fun error =>
       console_error (lit "Error generating resume summary:") ;;
       respond 500
         [(lit "error", JStr (lit "Failed to generate summary. Please check your API key."));
          (lit "details", JStr (err_message error))]).

(** [app.post('/api/resume/optimize-skills')] *)
Definition optimize_skills_template (b : body) : list piece :=
  [ Lit (lit "Optimize the following skills for a resume, considering these job requirements/keywords: "
           ++ [DQUOTE]);
    Sub (field b jobDescriptionKeywords);
    Lit ([DQUOTE] ++ lit ". Suggest 5-10 strong, relevant skills based on " ++ [DQUOTE]);
    Sub (field b currentSkills);
    Lit ([DQUOTE] ++ lit ". Provide as a comma-separated list of skills.") ].

Definition optimize_skills (b : body) : prog unit :=
  prompt <- template (optimize_skills_template b) ;;
  try_catch
    (raw <- generate TEXT_MODEL_NAME (CString prompt) ;;
     let optimizedSkills := trim raw in
     respond 200 [(lit "optimizedSkills", JStr optimizedSkills)])
    (fun error =>
       console_error (lit "Error optimizing skills:") ;;
       respond 500
         [(lit "error", JStr (lit "Failed to optimize skills. Please check your API key."));
          (lit "details", JStr (err_message error))]).

(** The six operations and their routes. *)
Inductive operation : Type :=
| Translate | Summarize | AnalyzeImage | AnalyzeAudio
| GenerateResumeSummary | OptimizeSkills.

Definition handler (op : operation) : body -> prog unit :=
  match op with
  | Translate => translate
  | Summarize => summarize
  | AnalyzeImage => analyze_image
  | AnalyzeAudio => analyze_audio
  | GenerateResumeSummary => generate_summary
  | OptimizeSkills => optimize_skills
  end.

(** ** Running a handler

    The provider is outside the program: its answer to a call may depend on
    the call and on everything that happened before it. *)
Definition provider : Type := list event -> jsstring -> content -> outcome.

Fixpoint run {A : Type} (p : provider) (c : prog A) (past : list event)
  : list event * (js_error + A) :=
  match c with
  | Ret a => (past, inr a)
  | Throw e => (past, inl e)
  | GenerateContent m x k =>
      let o := p past m x in
      run p (k o) (past ++ [Generated m x o])
  | Log l s k => run p k (past ++ [Logged l s])
  | SetTimeout ms k => run p k (past ++ [Waited ms])
  | Send st pl k => run p k (past ++ [Sent st pl])
  end.

(** The effects of serving one request. *)
Definition serve (p : provider) (op : operation) (b : body) : list event :=
  fst (run p (handler op b) []).

(** What is left when the handler's promise settles: [inl e] is a rejection
    that no [catch] of [server.js] handles. *)
Definition settles (p : provider) (op : operation) (b : body) : js_error + unit :=
  snd (run p (handler op b) []).

Fixpoint calls (tr : list event) : list (jsstring * content * outcome) :=
  match tr with
  | [] => []
  | Generated m x o :: rest => (m, x, o) :: calls rest
  | _ :: rest => calls rest
  end.

Fixpoint responses (tr : list event) : list (N * payload) :=
  match tr with
  | [] => []
  | Sent st pl :: rest => (st, pl) :: responses rest
  | _ :: rest => responses rest
  end.

End Server.

Arguments lit : simpl never.
Arguments trim : simpl never.
Arguments render : simpl never.

(** ** The top level of [server.js]

    What the module does when it is loaded.  The environment is
    [process.env] as [dotenv] has completed it; its values are strings. *)

Definition environment : Type := jsstring -> option jsstring.

(** [process.env.PORT || 3000] is a string or the number 3000. *)
Inductive port_value : Type :=
| PortString (s : jsstring)
| PortNumber (n : N).

Definition port_of (env : environment) : port_value :=
  match env (lit "PORT") with
  | Some (c :: s) => PortString (c :: s)
  | _ => PortNumber 3000
  end.

(** The port as the template literal of the start-up message prints it. *)
Definition port_text (pv : port_value) : jsstring :=
  match pv with
  | PortString s => s
  | PortNumber n => lit (NilEmpty.string_of_uint (N.to_uint n))
  end.

Inductive middleware : Type :=
| Cors
| JsonBody (limit : jsstring).

Inductive boot_event : Type :=
| Mounted (m : middleware)
| ConsoleError (msg : jsstring)
| Exited (code : N)
| ClientCreated (apiKey : jsstring)
| Routed (path : jsstring) (op : operation)
| Listen (pv : port_value).

(** The six [app.post] registrations, in the order of the file. *)
Definition routes : list (jsstring * operation) :=
  [ (lit "/api/translate", Translate);
    (lit "/api/summarize", Summarize);
    (lit "/api/analyze-image", AnalyzeImage);
    (lit "/api/analyze-audio", AnalyzeAudio);
    (lit "/api/resume/generate-summary", GenerateResumeSummary);
    (lit "/api/resume/optimize-skills", OptimizeSkills) ].

Definition boot (env : environment) : list boot_event :=
  let port := port_of env in
  [Mounted Cors; Mounted (JsonBody (lit "10mb"))]
  ++ match env (lit "GEMINI_API_KEY") with
     | Some (c :: key) =>
         ClientCreated (c :: key)
         :: map (fun r => Routed (fst r) (snd r)) routes
         ++ [Listen port]
     | _ =>
         [ConsoleError (lit "Error: GEMINI_API_KEY is not set in the .env file. Please check your .env file.");
          Exited 1]
     end.

(** The callback of [app.listen]: three lines on the console. *)
Definition listening (pv : port_value) : list jsstring :=
  [ lit "Backend server listening at http://localhost:" ++ port_text pv;
    lit "Open your frontend file (index.html) in your browser.";
    lit "Remember to set your GEMINI_API_KEY in your .env file!" ].

Definition routed_operations (tr : list boot_event) : list operation :=
  flat_map (fun ev => match ev with Routed _ op => [op] | _ => [] end) tr.

Definition listens (tr : list boot_event) : list port_value :=
  flat_map (fun ev => match ev with Listen pv => [pv] | _ => [] end) tr.

Definition exits (tr : list boot_event) : list N :=
  flat_map (fun ev => match ev with Exited code => [code] | _ => [] end) tr.

(** ** A sample engine and sample requests

    An engine whose numbers are the natural numbers, printed in decimal. *)

#[export] Instance sample_engine : Engine := {|
  num := N;
  num_to_boolean := fun n => negb (N.eqb n 0);
  num_to_string := fun n => lit (NilEmpty.string_of_uint (N.to_uint n));
  to_primitive_message := lit "Cannot convert object to primitive value"
|}.

(** A provider that answers every call with the same text, padded with
    white space, and one that fails every call. *)
Definition bonjour : provider :=
  fun _ _ _ => inr ([32%N; LF] ++ lit "Bonjour" ++ [32%N]).

Definition quota_error : js_error :=
  {| err_message := lit "429 Too Many Requests"; err_response := None |}.

Definition out_of_quota : provider := fun _ _ _ => inl quota_error.

(** Sample request bodies. *)
Definition str (s : string) : json := JStr (lit s).

Definition hello_translate : body :=
  ObjectBody [(lit "text", str "Hello"); (lit "fromLang", str "English");
              (lit "toLang", str "French")].

Definition hello_translate_reordered : body :=
  ObjectBody [(lit "toLang", str "French"); (lit "debug", JNum 1%N);
              (lit "text", str "Hello"); (lit "fromLang", str "English")].

Definition translate_without_text : body :=
  ObjectBody [(lit "fromLang", str "English"); (lit "toLang", str "French")].

Definition bullets_request : body :=
  ObjectBody [(lit "text", str "Hello"); (lit "summaryType", str "bullets")].

Definition brief_request : body :=
  ObjectBody [(lit "text", str "Hello"); (lit "summaryType", str "brief")].

Definition empty_image : body := ObjectBody [(lit "imageData", JStr [])].

Definition png_image : body :=
  ObjectBody [(lit "imageData", str "iVBORw0KGgo="); (lit "imageMimeType", str "image/png")].

Definition no_fields : body := ObjectBody [].

(** A body whose [currentSkills] is the object [{"toString": null}]. *)
Definition skills_with_toString : body :=
  ObjectBody [(lit "currentSkills", JObj [(lit "toString", JNull)]);
              (lit "jobDescriptionKeywords", str "Rocq")].

(** A provider whose every answer is blank. *)
Definition blank : provider := fun _ _ _ => inr [32%N; LF].

(** A provider that answers the first call and fails the next ones. *)
Definition one_answer : provider :=
  fun past _ _ =>
    match past with
    | [] => inr (lit "A summary.")
    | _ => inl quota_error
    end.

(** A translate request whose [fromLang] is [{"toString": null}], and a
    summarize request whose [text] is. *)
Definition translate_from_object : body :=
  ObjectBody [(lit "text", str "Hello");
              (lit "fromLang", JObj [(lit "toString", JNull)]);
              (lit "toLang", str "French")].

Definition summarize_object : body :=
  ObjectBody [(lit "text", JArr [JObj [(lit "toString", JNull)]]);
              (lit "summaryType", str "brief")].

(** An image request whose data is a number and whose media type is the
    empty string. *)
Definition odd_image : body :=
  ObjectBody [(lit "imageData", JNum 7%N); (lit "imageMimeType", JStr [])].

(** Environments: none of the variables set, and a key with an empty
    port. *)
Definition bare_environment : environment := fun _ => None.

Definition keyed_environment : environment :=
  fun name =>
    if jsstring_eqb name (lit "GEMINI_API_KEY") then Some (lit "secret")
    else if jsstring_eqb name (lit "PORT") then Some []
    else None.

(** ** The contract, as the specification words it *)

Section Contract.

Context {engine : Engine}.

(** The fields each operation requires. *)
Definition required (op : operation) : list field_name :=
  match op with
  | Translate => [text; fromLang; toLang]
  | Summarize => [text; summaryType]
  | AnalyzeImage => [imageData]
  | _ => []
  end.

(** The fields of each operation's input. *)
Definition inputs (op : operation) : list field_name :=
  match op with
  | Translate => [text; fromLang; toLang]
  | Summarize => [text; summaryType]
  | AnalyzeImage => [imageData; imageMimeType]
  | AnalyzeAudio => [audioData]
  | GenerateResumeSummary => [existingSummary; role; experienceLevel]
  | OptimizeSkills => [currentSkills; jobDescriptionKeywords]
  end.

Definition missing_message (op : operation) : jsstring :=
  match op with
  | Translate => lit "Missing text, fromLang, or toLang in request."
  | Summarize => lit "Missing text or summaryType in request."
  | AnalyzeImage => lit "Missing image data in request."
  | _ => []
  end.

Definition failure_message (op : operation) : jsstring :=
  match op with
  | Translate => lit "Failed to translate text. Please check your API key and input."
  | Summarize => lit "Failed to summarize text. Please check your API key and input."
  | AnalyzeImage => lit "Failed to analyze image. Please ensure your API key is correct and the image is valid."
  | AnalyzeAudio => lit "Failed to analyze audio (simulated)."
  | GenerateResumeSummary => lit "Failed to generate summary. Please check your API key."
  | OptimizeSkills => lit "Failed to optimize skills. Please check your API key."
  end.

Definition error_envelope (msg : jsstring) : payload := [(lit "error", JStr msg)].

Definition failure_envelope (msg details : jsstring) : payload :=
  [(lit "error", JStr msg); (lit "details", JStr details)].

(** What a [catch] block of [server.js] does with the error it caught: it
    logs it, the first three handlers also log [error.response.data] when
    there is one, and it answers 500. *)
Definition log_label (op : operation) : jsstring :=
  match op with
  | Translate => lit "Error translating text:"
  | Summarize => lit "Error summarizing text:"
  | AnalyzeImage => lit "Error analyzing image:"
  | AnalyzeAudio => lit "Error analyzing audio (simulated):"
  | GenerateResumeSummary => lit "Error generating resume summary:"
  | OptimizeSkills => lit "Error optimizing skills:"
  end.

Definition logs_details (op : operation) : bool :=
  match op with
  | Translate | Summarize | AnalyzeImage => true
  | _ => false
  end.

Definition caught (op : operation) (e : js_error) : list event :=
  Logged LError (log_label op)
  :: (if logs_details op && has_response_data e
      then [Logged LError (lit "Gemini API Error details:")] else [])
  ++ [Sent 500 (failure_envelope (failure_message op) (err_message e))].

Arguments caught : simpl never.

(** One guarded generation call: the call, then either the success events or
    the [catch] block. *)
Definition guarded_call (p : provider) (op : operation) (past : list event)
           (m : jsstring) (c : content) (ok : jsstring -> list event) : list event :=
  Generated m c (p past m c)
  :: match p past m c with
     | inl e => caught op e
     | inr raw => ok raw
     end.

(** The summary prompt the specification selects for a summaryType that is
    not [bullets] or [key]: one for [brief], one for [detailed], the default
    one for anything else. *)
Definition summary_prompt (ty : value) (t : jsstring) : jsstring :=
  (if strict_equals ty (lit "brief")
   then lit "Provide a very brief, 1-2 sentence summary of the following text. Only the summary."
   else if strict_equals ty (lit "detailed")
   then lit "Provide a detailed, 3-5 sentence summary of the following text. Only the summary."
   else lit "Summarize the following text. Only the summary.")
  ++ [LF] ++ lit "Text: " ++ [DQUOTE] ++ t ++ [DQUOTE].

Definition key_takeaways_prompt (t : jsstring) : jsstring :=
  lit "Extract 3-5 key takeaways from the following text as bullet points:"
  ++ [LF] ++ [DQUOTE] ++ t ++ [DQUOTE].

(** The media types of the attachments handed to the provider. *)
Definition part_types (c : content) : list value :=
  match c with
  | CString _ => []
  | CParts parts =>
      flat_map (fun pt => match pt with
                          | PText _ => []
                          | PInlineData _ mt => [mt]
                          end) parts
  end.

Definition attachment_types (tr : list event) : list value :=
  flat_map (fun call => part_types (snd (fst call))) (calls tr).

(** [out] is [raw] with its leading and trailing white space removed:
    what is cut off on either side is white space only, and what is left
    neither begins nor ends with white space. *)
Definition starts_clean (s : jsstring) : Prop :=
  match s with
  | [] => True
  | c :: _ => is_whitespace c = false
  end.

Definition strips (raw out : jsstring) : Prop :=
  exists l r,
    raw = l ++ out ++ r
    /\ forallb is_whitespace l = true
    /\ forallb is_whitespace r = true
    /\ starts_clean out
    /\ starts_clean (rev out).

(** The success body of each AI-backed operation, from the texts it
    returns.  Summarize returns one text twice or two texts. *)
Definition envelope (op : operation) (texts : list jsstring) : payload :=
  match op, texts with
  | Translate, [t] => [(lit "translatedText", JStr t)]
  | Summarize, [s] => [(lit "summary", JStr s); (lit "keyPoints", JStr s)]
  | Summarize, [s; k] => [(lit "summary", JStr s); (lit "keyPoints", JStr k)]
  | AnalyzeImage, [d] => [(lit "description", JStr d)]
  | GenerateResumeSummary, [g] => [(lit "generatedSummary", JStr g)]
  | OptimizeSkills, [o] => [(lit "optimizedSkills", JStr o)]
  | _, _ => []
  end.

(** The generation requests of a trace, without their outcomes. *)
Definition requests (tr : list event) : list (jsstring * content) :=
  map fst (calls tr).

(** The requests a handler is prepared to make, from the fields of the body
    alone: the provider only decides how many of them come to pass. *)
Definition plan (op : operation) (b : body) : list (jsstring * content) :=
  match op with
  | Translate =>
      if negb (to_boolean (field b text)) || negb (to_boolean (field b fromLang))
         || negb (to_boolean (field b toLang))
      then []
      else match render (translate_template b) with
           | inl _ => []
           | inr prompt => [(TEXT_MODEL_NAME, CString prompt)]
           end
  | Summarize =>
      if negb (to_boolean (field b text)) || negb (to_boolean (field b summaryType))
      then []
      else match render (summarize_template b) with
           | inl _ => []
           | inr prompt =>
               (TEXT_MODEL_NAME, CString prompt)
               :: (if strict_equals (field b summaryType) (lit "bullets")
                      || strict_equals (field b summaryType) (lit "key")
                   then []
                   else match render (key_points_template b) with
                        | inl _ => []
                        | inr keyPointsPrompt =>
                            [(TEXT_MODEL_NAME, CString keyPointsPrompt)]
                        end)
           end
  | AnalyzeImage =>
      if negb (to_boolean (field b imageData))
      then []
      else [(VISION_MODEL_NAME,
             CParts [PText image_prompt;
                     PInlineData (field b imageData)
                       (or_default (field b imageMimeType) (lit "image/jpeg"))])]
  | AnalyzeAudio => []
  | GenerateResumeSummary =>
      match render (generate_summary_template b) with
      | inl _ => []
      | inr prompt => [(TEXT_MODEL_NAME, CString prompt)]
      end
  | OptimizeSkills =>
      match render (optimize_skills_template b) with
      | inl _ => []
      | inr prompt => [(TEXT_MODEL_NAME, CString prompt)]
      end
  end.

(** The prompt template of a resume endpoint. *)
Definition resume_template (op : operation) (b : body) : list piece :=
  match op with
  | GenerateResumeSummary => generate_summary_template b
  | OptimizeSkills => optimize_skills_template b
  | _ => []
  end.

(** A value that ToString converts without throwing. *)
Definition convertible (v : value) : Prop := exists s, to_string v = inr s.

(** The fields a handler substitutes into its prompt template. *)
Definition substituted (op : operation) : list field_name :=
  match op with
  | Translate => [fromLang; toLang; text]
  | Summarize => [text]
  | GenerateResumeSummary => [role; experienceLevel; existingSummary]
  | OptimizeSkills => [jobDescriptionKeywords; currentSkills]
  | _ => []
  end.

(** The handlers whose template is rendered before their [try] block. *)
Definition renders_outside_try (op : operation) : bool :=
  match op with
  | Summarize | GenerateResumeSummary | OptimizeSkills => true
  | _ => false
  end.

(** The model a handler asks for, and the most calls it makes. *)
Definition model_of (op : operation) : jsstring :=
  match op with
  | AnalyzeImage => VISION_MODEL_NAME
  | _ => TEXT_MODEL_NAME
  end.

Definition max_calls (op : operation) : nat :=
  match op with
  | Summarize => 2
  | AnalyzeAudio => 0
  | _ => 1
  end.

(** The field names of a success body. *)
Definition success_keys (op : operation) : list jsstring :=
  match op with
  | Translate => [lit "translatedText"]
  | Summarize => [lit "summary"; lit "keyPoints"]
  | AnalyzeImage => [lit "description"]
  | AnalyzeAudio => [lit "transcription"; lit "emotion"]
  | GenerateResumeSummary => [lit "generatedSummary"]
  | OptimizeSkills => [lit "optimizedSkills"]
  end.

Definition is_text (v : json) : Prop := exists s, v = JStr s.

(** The prompt template of each operation; two operations have none. *)
Definition prompt_template (op : operation) (b : body) : list piece :=
  match op with
  | Translate => translate_template b
  | Summarize => summarize_template b
  | GenerateResumeSummary => generate_summary_template b
  | OptimizeSkills => optimize_skills_template b
  | _ => []
  end.

(** ** Running programs *)

Lemma run_bind {A B : Type} (p : provider) (c : prog A) (f : A -> prog B) :
  forall past,
    run p (bind c f) past =
    match run p c past with
    | (tr, inl e) => (tr, inl e)
    | (tr, inr a) => run p (f a) tr
    end.
Proof.
  induction c as [a | e | m x k IH | l s k IH | ms k IH | st pl k IH];
    intros past; simpl; auto.
Qed.

Lemma run_try_catch {A : Type} (p : provider) (c : prog A) (h : js_error -> prog A) :
  forall past,
    run p (try_catch c h) past =
    match run p c past with
    | (tr, inl e) => run p (h e) tr
    | (tr, inr a) => (tr, inr a)
    end.
Proof.
  induction c as [a | e | m x k IH | l s k IH | ms k IH | st pl k IH];
    intros past; simpl; auto.
Qed.

Lemma calls_app (a b : list event) : calls (a ++ b) = calls a ++ calls b.
Proof.
  induction a as [| [m x o | l s | ms | st pl] a IH]; simpl; rewrite ?IH; reflexivity.
Qed.

Lemma responses_app (a b : list event) :
  responses (a ++ b) = responses a ++ responses b.
Proof.
  induction a as [| [m x o | l s | ms | st pl] a IH]; simpl; rewrite ?IH; reflexivity.
Qed.

Lemma calls_caught (op : operation) (e : js_error) : calls (caught op e) = [].
Proof.
  unfold caught. destruct (logs_details op && has_response_data e); reflexivity.
Qed.

Lemma responses_caught (op : operation) (e : js_error) :
  responses (caught op e)
  = [(500%N, failure_envelope (failure_message op) (err_message e))].
Proof.
  unfold caught. destruct (logs_details op && has_response_data e); reflexivity.
Qed.

Lemma calls_guarded_call (p : provider) (op : operation) (past : list event)
      (m : jsstring) (c : content) (ok : jsstring -> list event) :
  calls (guarded_call p op past m c ok)
  = (m, c, p past m c)
    :: match p past m c with inl _ => [] | inr raw => calls (ok raw) end.
Proof.
  unfold guarded_call. simpl. f_equal.
  destruct (p past m c); [apply calls_caught | reflexivity].
Qed.

Lemma responses_guarded_call (p : provider) (op : operation) (past : list event)
      (m : jsstring) (c : content) (ok : jsstring -> list event) :
  responses (guarded_call p op past m c ok)
  = match p past m c with
    | inl e => [(500%N, failure_envelope (failure_message op) (err_message e))]
    | inr raw => responses (ok raw)
    end.
Proof.
  unfold guarded_call. simpl.
  destruct (p past m c); [apply responses_caught | reflexivity].
Qed.

(** *** The trace of each handler *)

(** The two shapes a handler's run takes once a generation has answered. *)
Ltac settle_call e :=
  simpl; first [ reflexivity | destruct (has_response_data e); reflexivity ].

Lemma serve_translate (p : provider) (b : body) :
  serve p Translate b =
  if negb (to_boolean (field b text)) || negb (to_boolean (field b fromLang))
     || negb (to_boolean (field b toLang))
  then [Sent 400 (error_envelope (missing_message Translate))]
  else match render (translate_template b) with
       | inl e => caught Translate e
       | inr prompt =>
           guarded_call p Translate [] TEXT_MODEL_NAME (CString prompt)
             (fun raw => [Sent 200 [(lit "translatedText", JStr (trim raw))]])
       end.
Proof.
  unfold serve, guarded_call, caught. simpl handler. unfold translate, template.
  destruct (negb _ || _ || _); [reflexivity |].
  destruct (render (translate_template b)) as [e | prompt]; [settle_call e |].
  simpl.
  destruct (p [] TEXT_MODEL_NAME (CString prompt)) as [e | raw]; settle_call e.
Qed.

Lemma serve_summarize (p : provider) (b : body) :
  serve p Summarize b =
  if negb (to_boolean (field b text)) || negb (to_boolean (field b summaryType))
  then [Sent 400 (error_envelope (missing_message Summarize))]
  else match render (summarize_template b) with
       | inl e => []
       | inr prompt =>
           guarded_call p Summarize [] TEXT_MODEL_NAME (CString prompt)
             (fun raw =>
                if strict_equals (field b summaryType) (lit "bullets")
                   || strict_equals (field b summaryType) (lit "key")
                then [Sent 200 [(lit "summary", JStr (trim raw));
                                (lit "keyPoints", JStr (trim raw))]]
                else match render (key_points_template b) with
                     | inl e => caught Summarize e
                     | inr keyPointsPrompt =>
                         guarded_call p Summarize
                           [Generated TEXT_MODEL_NAME (CString prompt) (inr raw)]
                           TEXT_MODEL_NAME (CString keyPointsPrompt)
                           (fun keyPointsRaw =>
                              [Sent 200 [(lit "summary", JStr (trim raw));
                                         (lit "keyPoints", JStr (trim keyPointsRaw))]])
                     end)
       end.
Proof.
  unfold serve, guarded_call, caught. simpl handler. unfold summarize, template.
  destruct (negb _ || _); [reflexivity |].
  destruct (render (summarize_template b)) as [e | prompt]; [reflexivity |].
  simpl.
  destruct (p [] TEXT_MODEL_NAME (CString prompt)) as [e | raw]; [settle_call e | simpl].
  destruct (strict_equals _ _ || _); [reflexivity |].
  destruct (render (key_points_template b)) as [e | kp]; [settle_call e | simpl].
  destruct (p _ TEXT_MODEL_NAME (CString kp)) as [e | raw2]; [settle_call e | simpl].
  reflexivity.
Qed.

Lemma serve_analyze_image (p : provider) (b : body) :
  serve p AnalyzeImage b =
  if negb (to_boolean (field b imageData))
  then [Sent 400 (error_envelope (missing_message AnalyzeImage))]
  else guarded_call p AnalyzeImage [] VISION_MODEL_NAME
         (CParts [PText image_prompt;
                  PInlineData (field b imageData)
                    (or_default (field b imageMimeType) (lit "image/jpeg"))])
         (fun raw => [Sent 200 [(lit "description", JStr (trim raw))]]).
Proof.
  unfold serve, guarded_call, caught. simpl handler. unfold analyze_image.
  destruct (negb _); [reflexivity |].
  simpl.
  destruct (p [] VISION_MODEL_NAME _) as [e | raw]; [settle_call e | simpl].
  reflexivity.
Qed.

Lemma serve_analyze_audio (p : provider) (b : body) :
  serve p AnalyzeAudio b =
  (if negb (to_boolean (field b audioData))
   then [Logged LWarn (lit "Received audio analysis request without audio data (likely from placeholder recording).")]
   else [])
  ++ [Waited 2500;
      Sent 200 [(lit "transcription", JStr transcription); (lit "emotion", JStr emotion)]].
Proof.
  unfold serve. simpl handler. unfold analyze_audio.
  destruct (negb _); reflexivity.
Qed.

Lemma serve_generate_summary (p : provider) (b : body) :
  serve p GenerateResumeSummary b =
  match render (generate_summary_template b) with
  | inl e => []
  | inr prompt =>
      guarded_call p GenerateResumeSummary [] TEXT_MODEL_NAME (CString prompt)
        (fun raw => [Sent 200 [(lit "generatedSummary", JStr (trim raw))]])
  end.
Proof.
  unfold serve, guarded_call, caught. simpl handler. unfold generate_summary, template.
  destruct (render (generate_summary_template b)) as [e | prompt]; [reflexivity |].
  simpl.
  destruct (p [] TEXT_MODEL_NAME (CString prompt)) as [e | raw]; reflexivity.
Qed.

Lemma serve_optimize_skills (p : provider) (b : body) :
  serve p OptimizeSkills b =
  match render (optimize_skills_template b) with
  | inl e => []
  | inr prompt =>
      guarded_call p OptimizeSkills [] TEXT_MODEL_NAME (CString prompt)
        (fun raw => [Sent 200 [(lit "optimizedSkills", JStr (trim raw))]])
  end.
Proof.
  unfold serve, guarded_call, caught. simpl handler. unfold optimize_skills, template.
  destruct (render (optimize_skills_template b)) as [e | prompt]; [reflexivity |].
  simpl.
  destruct (p [] TEXT_MODEL_NAME (CString prompt)) as [e | raw]; reflexivity.
Qed.

(** A request with a falsy required field is answered with 400 and nothing
    else happens. *)
Lemma falsy_required_field_rejected (p : provider) (op : operation) (b : body)
      (f : field_name) :
  In f (required op) ->
  to_boolean (field b f) = false ->
  run p (handler op b) [] = ([Sent 400 (error_envelope (missing_message op))], inr tt).
Proof.
  intros Hin Hf.
  destruct op; simpl in Hin; try contradiction.
  - simpl. unfold translate.
    destruct Hin as [<- | [<- | [<- | []]]]; rewrite Hf; simpl;
      rewrite ?orb_true_r; reflexivity.
  - simpl. unfold summarize.
    destruct Hin as [<- | [<- | []]]; rewrite Hf; simpl;
      rewrite ?orb_true_r; reflexivity.
  - simpl. unfold analyze_image.
    destruct Hin as [<- | []]; rewrite Hf; reflexivity.
Qed.

(** C1.  For translate (text, fromLang, toLang), summarize (text,
    summaryType) and analyze-image (imageData): a request that omits one of the
    required fields is answered with status 400 and a body holding an error
    message, and no generation call is made. *)
Theorem missing_required_field_is_400 (p : provider) (op : operation) (b : body)
        (f : field_name) :
  In f (required op) ->
  field b f = None ->
  responses (serve p op b) = [(400%N, error_envelope (missing_message op))]
  /\ missing_message op <> []
  /\ calls (serve p op b) = [].
Proof.
  intros Hin Hf.
  assert (Hrun := falsy_required_field_rejected p op b f Hin).
  rewrite Hf in Hrun. specialize (Hrun eq_refl).
  unfold serve. rewrite Hrun. simpl.
  repeat split.
  destruct op; simpl in Hin; try contradiction; discriminate.
Qed.

(** *** Strings and templates *)

Lemma jsstring_eqb_refl (a : jsstring) : jsstring_eqb a a = true.
Proof.
  induction a as [| x a IH]; simpl; [reflexivity |].
  rewrite N.eqb_refl, IH. reflexivity.
Qed.

Lemma jsstring_eqb_eq (a b : jsstring) : jsstring_eqb a b = true -> a = b.
Proof.
  revert b. induction a as [| x a IH]; intros [| y b]; simpl; try discriminate; auto.
  intros H. apply andb_true_iff in H. destruct H as [Hx Hab].
  apply N.eqb_eq in Hx. f_equal; auto.
Qed.

Lemma strict_equals_true (v : value) (s : jsstring) :
  strict_equals v s = true <-> v = Some (JStr s).
Proof.
  split.
  - destruct v as [[| | | t | |] |]; simpl; try discriminate.
    intros H. apply jsstring_eqb_eq in H. congruence.
  - intros ->. apply jsstring_eqb_refl.
Qed.

Lemma strict_equals_false (v : value) (s : jsstring) :
  v <> Some (JStr s) -> strict_equals v s = false.
Proof.
  intros H. destruct (strict_equals v s) eqn:E; [| reflexivity].
  apply strict_equals_true in E. contradiction.
Qed.

Lemma render_nil : render [] = inr [].
Proof. reflexivity. Qed.

Lemma render_Lit (s : jsstring) (rest : list piece) :
  render (Lit s :: rest) =
  match render rest with inl e => inl e | inr r => inr (s ++ r) end.
Proof. reflexivity. Qed.

Lemma render_Sub (v : value) (rest : list piece) :
  render (Sub v :: rest) =
  match to_string v with
  | inl e => inl e
  | inr s => match render rest with inl e => inl e | inr r => inr (s ++ r) end
  end.
Proof. reflexivity. Qed.

Create Rewrite HintDb render.
#[local] Hint Rewrite render_nil render_Lit render_Sub : render.

Lemma render_summarize_template (b : body) (t : jsstring) :
  to_string (field b text) = inr t ->
  exists prompt, render (summarize_template b) = inr prompt.
Proof.
  intros Ht. unfold summarize_template, text_tail.
  repeat match goal with |- context [if ?c then _ else _] => destruct c end;
    autorewrite with render; rewrite Ht; eexists; reflexivity.
Qed.

Lemma render_summary_prompt (b : body) (t : jsstring) :
  strict_equals (field b summaryType) (lit "bullets") = false ->
  strict_equals (field b summaryType) (lit "key") = false ->
  to_string (field b text) = inr t ->
  render (summarize_template b) = inr (summary_prompt (field b summaryType) t).
Proof.
  intros Hb Hk Ht. unfold summarize_template, summary_prompt, text_tail.
  rewrite Hb, Hk.
  destruct (strict_equals (field b summaryType) (lit "brief"));
    [| destruct (strict_equals (field b summaryType) (lit "detailed"))];
    autorewrite with render; rewrite Ht; simpl; rewrite <- ?app_assoc; reflexivity.
Qed.

Lemma render_key_points_template (b : body) (t : jsstring) :
  to_string (field b text) = inr t ->
  render (key_points_template b) = inr (key_takeaways_prompt t).
Proof.
  intros Ht. unfold key_points_template, key_takeaways_prompt.
  autorewrite with render. rewrite Ht. simpl. rewrite <- ?app_assoc. reflexivity.
Qed.

(** C2.  A summarize request whose summaryType is [bullets] or [key] never
    causes a second generation call; in its success response [keyPoints] is the
    very string of [summary], and exactly one generation call was made.
    Exactly one call is made as soon as the request passes validation and its
    text converts to a string. *)
Theorem bullets_and_key_reuse_the_summary (p : provider) (b : body) :
  field b summaryType = Some (JStr (lit "bullets"))
  \/ field b summaryType = Some (JStr (lit "key")) ->
  List.length (calls (serve p Summarize b)) <= 1
  /\ (forall pl, In (200%N, pl) (responses (serve p Summarize b)) ->
        (exists s, pl = [(lit "summary", JStr s); (lit "keyPoints", JStr s)])
        /\ List.length (calls (serve p Summarize b)) = 1)
  /\ (to_boolean (field b text) = true ->
      (exists t, to_string (field b text) = inr t) ->
      List.length (calls (serve p Summarize b)) = 1).
Proof.
  intros Hty.
  assert (Hreuse : strict_equals (field b summaryType) (lit "bullets")
                   || strict_equals (field b summaryType) (lit "key") = true).
  { destruct Hty as [-> | ->]; reflexivity. }
  assert (Htruthy : to_boolean (field b summaryType) = true).
  { destruct Hty as [-> | ->]; reflexivity. }
  rewrite serve_summarize, Hreuse, Htruthy.
  destruct (to_boolean (field b text)); simpl.
  2: { split; [lia |]. split; [| discriminate].
       intros pl [H | []]. inversion H. }
  destruct (render (summarize_template b)) as [e | prompt] eqn:Hrender.
  { simpl. split; [lia |]. split; [intros pl [] |].
    intros _ [t Ht]. destruct (render_summarize_template b Ht) as [pr Hpr].
    congruence. }
  rewrite calls_guarded_call, responses_guarded_call.
  destruct (p [] TEXT_MODEL_NAME (CString prompt)) as [e | raw]; simpl.
  - split; [lia |]. split; [| reflexivity].
    intros pl [H | []]. inversion H.
  - split; [lia |]. split; [| reflexivity].
    intros pl [H | []]. inversion H. split; [eexists |]; reflexivity.
Qed.

(** C3, as the code has it.  A summarize request that passes validation, whose
    text converts to a string and whose summaryType is neither [bullets] nor
    [key], makes its first generation call with the summary prompt selected for
    the summaryType (the default prompt for an unrecognized value).  When that
    call fails it is the only one.  When it succeeds exactly two calls are
    made, the second with the fixed key-takeaways prompt, and when the second
    succeeds too the response carries the trimmed first result as [summary] and
    the trimmed second result as [keyPoints]. *)
Theorem separate_key_points_call (p : provider) (b : body) (t : jsstring) :
  to_boolean (field b text) = true ->
  to_boolean (field b summaryType) = true ->
  field b summaryType <> Some (JStr (lit "bullets")) ->
  field b summaryType <> Some (JStr (lit "key")) ->
  to_string (field b text) = inr t ->
  exists o1,
    let first := (TEXT_MODEL_NAME, CString (summary_prompt (field b summaryType) t), o1) in
    hd_error (calls (serve p Summarize b)) = Some first
    /\ (forall e, o1 = inl e -> calls (serve p Summarize b) = [first])
    /\ (forall r1, o1 = inr r1 ->
        exists o2,
          calls (serve p Summarize b)
          = [first; (TEXT_MODEL_NAME, CString (key_takeaways_prompt t), o2)]
          /\ (forall r2, o2 = inr r2 ->
               responses (serve p Summarize b)
               = [(200%N, [(lit "summary", JStr (trim r1));
                           (lit "keyPoints", JStr (trim r2))])])).
Proof.
  intros Htext Hty Hb Hk Ht.
  apply strict_equals_false in Hb. apply strict_equals_false in Hk.
  rewrite serve_summarize, Htext, Hty, Hb, Hk.
  rewrite (render_summary_prompt b Hb Hk Ht), (render_key_points_template b Ht).
  simpl negb. simpl orb. cbv iota.
  set (prompt := summary_prompt (field b summaryType) t).
  set (kp := key_takeaways_prompt t).
  rewrite calls_guarded_call, responses_guarded_call.
  exists (p [] TEXT_MODEL_NAME (CString prompt)).
  destruct (p [] TEXT_MODEL_NAME (CString prompt)) as [e | r1].
  - repeat split; try discriminate.
  - rewrite calls_guarded_call, responses_guarded_call.
    split; [reflexivity |]. split; [discriminate |].
    intros r H. inversion H; subst r. clear H.
    exists (p [Generated TEXT_MODEL_NAME (CString prompt) (inr r1)]
              TEXT_MODEL_NAME (CString kp)).
    destruct (p [Generated TEXT_MODEL_NAME (CString prompt) (inr r1)]
                TEXT_MODEL_NAME (CString kp)) as [e | r2].
    + split; [reflexivity | discriminate].
    + split; [reflexivity |]. intros r H. inversion H; subst r. reflexivity.
Qed.

Lemma failed_guarded_call (p : provider) (op : operation) (past : list event)
      (m m' : jsstring) (c c' : content) (ok : jsstring -> list event)
      (e : js_error) :
  In (m, c, inl e) (calls (guarded_call p op past m' c' ok)) ->
  (forall raw, In (m, c, inl e) (calls (ok raw)) ->
               responses (ok raw)
               = [(500%N, failure_envelope (failure_message op) (err_message e))]) ->
  responses (guarded_call p op past m' c' ok)
  = [(500%N, failure_envelope (failure_message op) (err_message e))].
Proof.
  rewrite calls_guarded_call, responses_guarded_call.
  destruct (p past m' c') as [e' | raw]; intros [H | H] Hok.
  - inversion H. reflexivity.
  - contradiction.
  - discriminate.
  - auto.
Qed.

(** C4.  Whenever a generation call made for one of the AI-backed endpoints
    raises an error, the endpoint answers with status 500 and a body whose
    [error] field is the endpoint's fixed message and whose [details] field is
    the message of the raised error. *)
Theorem provider_failure_is_500 (p : provider) (op : operation) (b : body)
        (m : jsstring) (c : content) (e : js_error) :
  In (m, c, inl e) (calls (serve p op b)) ->
  responses (serve p op b)
  = [(500%N, [(lit "error", JStr (failure_message op));
              (lit "details", JStr (err_message e))])]
  /\ failure_message op <> [].
Proof.
  intros Hcall. split; [| destruct op; discriminate].
  destruct op.
  - rewrite serve_translate in *.
    destruct (negb _ || _ || _); [destruct Hcall |].
    destruct (render (translate_template b)).
    + rewrite calls_caught in Hcall. destruct Hcall.
    + eapply failed_guarded_call; [exact Hcall |]. intros raw [].
  - rewrite serve_summarize in *.
    destruct (negb _ || _); [destruct Hcall |].
    destruct (render (summarize_template b)); [destruct Hcall |].
    eapply failed_guarded_call; [exact Hcall |]. intros raw.
    destruct (strict_equals _ _ || _); [intros [] |].
    destruct (render (key_points_template b)).
    + rewrite calls_caught. intros [].
    + intros Hsecond.
      eapply failed_guarded_call; [exact Hsecond |]. intros raw2 [].
  - rewrite serve_analyze_image in *.
    destruct (negb _); [destruct Hcall |].
    eapply failed_guarded_call; [exact Hcall |]. intros raw [].
  - rewrite serve_analyze_audio, calls_app in Hcall.
    destruct (negb _); destruct Hcall.
  - rewrite serve_generate_summary in *.
    destruct (render (generate_summary_template b)); [destruct Hcall |].
    eapply failed_guarded_call; [exact Hcall |]. intros raw [].
  - rewrite serve_optimize_skills in *.
    destruct (render (optimize_skills_template b)); [destruct Hcall |].
    eapply failed_guarded_call; [exact Hcall |]. intros raw [].
Qed.

(** C5.  Every analyze-audio request, with or without [audioData], is
    answered with the same fixed transcription and emotion strings; the answer
    is sent after a timer of 2500 milliseconds has been awaited, only a console
    warning may come before the timer, and no generation call is made. *)
Theorem analyze_audio_is_simulated (p : provider) (b : body) :
  exists warning,
    serve p AnalyzeAudio b
    = warning ++ [Waited 2500;
                  Sent 200 [(lit "transcription", JStr transcription);
                            (lit "emotion", JStr emotion)]]
    /\ Forall (fun ev => exists s, ev = Logged LWarn s) warning
    /\ calls (serve p AnalyzeAudio b) = []
    /\ responses (serve p AnalyzeAudio b)
       = [(200%N, [(lit "transcription", JStr transcription);
                   (lit "emotion", JStr emotion)])].
Proof.
  rewrite serve_analyze_audio.
  destruct (negb (to_boolean (field b audioData))).
  - eexists. split; [reflexivity |]. split; [| split; reflexivity].
    constructor; [eexists; reflexivity | constructor].
  - exists []. split; [reflexivity |]. split; [constructor | split; reflexivity].
Qed.

(** C9.  An analyze-image request that reaches the provider sends exactly
    one attachment.  Its media type is image/jpeg when [imageMimeType] is
    absent, and the supplied [imageMimeType] itself when that is a non-empty
    string.  A request without image data sends no attachment at all. *)
Theorem image_media_type (p : provider) (b : body) :
  (field b imageMimeType = None ->
   attachment_types (serve p AnalyzeImage b)
   = if to_boolean (field b imageData) then [Some (JStr (lit "image/jpeg"))] else [])
  /\ (forall s, s <> [] -> field b imageMimeType = Some (JStr s) ->
       attachment_types (serve p AnalyzeImage b)
       = if to_boolean (field b imageData) then [Some (JStr s)] else []).
Proof.
  rewrite serve_analyze_image. unfold attachment_types.
  destruct (to_boolean (field b imageData)); simpl negb; cbv iota.
  2: { split; intros; reflexivity. }
  rewrite calls_guarded_call.
  assert (Hok : forall raw, calls [Sent 200 [(lit "description", JStr (trim raw))]] = [])
    by reflexivity.
  split.
  - intros ->. destruct (p [] _ _); reflexivity.
  - intros s Hs ->. unfold or_default.
    destruct s as [| c s]; [contradiction |].
    destruct (p [] _ _); reflexivity.
Qed.

(** C10.  An analyze-image request whose [imageData] is present but is the
    empty string is answered with status 400, and no generation call is
    made. *)
Theorem empty_image_data_is_400 (p : provider) (b : body) :
  field b imageData = Some (JStr []) ->
  responses (serve p AnalyzeImage b)
  = [(400%N, [(lit "error", JStr (lit "Missing image data in request."))])]
  /\ calls (serve p AnalyzeImage b) = [].
Proof.
  intros Hdata. unfold serve.
  rewrite (@falsy_required_field_rejected p AnalyzeImage b imageData).
  - split; reflexivity.
  - simpl. auto.
  - rewrite Hdata. reflexivity.
Qed.

(** *** Trimming *)

Lemma trim_start_split (s : jsstring) :
  exists l, s = l ++ trim_start s /\ forallb is_whitespace l = true.
Proof.
  induction s as [| c s [l [Hs Hl]]]; simpl.
  - exists []. split; reflexivity.
  - destruct (is_whitespace c) eqn:Hc.
    + exists (c :: l). simpl. rewrite Hc, Hl. split; [congruence | reflexivity].
    + exists []. split; reflexivity.
Qed.

Lemma trim_start_clean (s : jsstring) : starts_clean (trim_start s).
Proof.
  induction s as [| c s IH]; simpl; [exact I |].
  destruct (is_whitespace c) eqn:Hc; [exact IH | exact Hc].
Qed.

Lemma trim_start_whitespace_app (l x : jsstring) :
  forallb is_whitespace l = true -> trim_start (l ++ x) = trim_start x.
Proof.
  induction l as [| c l IH]; simpl; [reflexivity |].
  intros H. apply andb_true_iff in H. destruct H as [Hc Hl].
  rewrite Hc. auto.
Qed.

Lemma trim_start_clean_id (s : jsstring) : starts_clean s -> trim_start s = s.
Proof.
  destruct s as [| c s]; simpl; [reflexivity |]. intros ->. reflexivity.
Qed.

Lemma forallb_rev (f : N -> bool) (l : jsstring) :
  forallb f (rev l) = forallb f l.
Proof.
  induction l as [| c l IH]; simpl; [reflexivity |].
  rewrite forallb_app, IH. simpl. rewrite andb_true_r. apply andb_comm.
Qed.

Lemma trim_end_split (s : jsstring) :
  exists r, s = trim_end s ++ r /\ forallb is_whitespace r = true.
Proof.
  unfold trim_end. destruct (trim_start_split (rev s)) as [l [Hs Hl]].
  exists (rev l). split.
  - rewrite <- rev_app_distr, <- Hs, rev_involutive. reflexivity.
  - rewrite forallb_rev. exact Hl.
Qed.

Lemma trim_end_clean (s : jsstring) : starts_clean (rev (trim_end s)).
Proof.
  unfold trim_end. rewrite rev_involutive. apply trim_start_clean.
Qed.

Lemma trim_end_keeps_start (s : jsstring) :
  starts_clean s -> starts_clean (trim_end s).
Proof.
  destruct (trim_end_split s) as [r [Hs _]].
  destruct (trim_end s) as [| c t]; [intros; exact I |].
  rewrite Hs. simpl. auto.
Qed.

Lemma trim_strips (raw : jsstring) : strips raw (trim raw).
Proof.
  unfold trim.
  destruct (trim_start_split raw) as [l [Hraw Hl]].
  destruct (trim_end_split (trim_start raw)) as [r [Hts Hr]].
  exists l, r. repeat split; auto.
  - rewrite <- Hts. exact Hraw.
  - apply trim_end_keeps_start, trim_start_clean.
  - apply trim_end_clean.
Qed.

Lemma strips_is_trim (raw out : jsstring) : strips raw out -> out = trim raw.
Proof.
  intros [l [r [-> [Hl [Hr [Hout Hend]]]]]].
  unfold trim. rewrite trim_start_whitespace_app by exact Hl.
  destruct out as [| c out].
  - simpl. rewrite <- (app_nil_r r), trim_start_whitespace_app by exact Hr.
    reflexivity.
  - rewrite (@trim_start_clean_id ((c :: out) ++ r)) by exact Hout.
    unfold trim_end. rewrite rev_app_distr.
    rewrite trim_start_whitespace_app by (rewrite forallb_rev; exact Hr).
    rewrite trim_start_clean_id by exact Hend.
    apply eq_sym, rev_involutive.
Qed.

(** C7.  In every success response of an AI-backed endpoint all generation
    calls of the request succeeded, and the texts of the response are the raw
    outputs of those calls with the leading and trailing white space removed:
    one text for translate, analyze-image and the resume endpoints, the
    summary and the key points for summarize. *)
Theorem returned_text_is_trimmed_output (p : provider) (op : operation) (b : body)
        (pl : payload) :
  op <> AnalyzeAudio ->
  In (200%N, pl) (responses (serve p op b)) ->
  exists raws texts,
    map snd (calls (serve p op b)) = map inr raws
    /\ Forall2 strips raws texts
    /\ texts = map trim raws
    /\ pl = envelope op texts.
Proof.
  intros Hop Hin.
  assert (Hone : forall raw : jsstring, Forall2 strips [raw] [trim raw]).
  { intros raw. constructor; [apply trim_strips | constructor]. }
  assert (Hbad : forall (e : js_error) (q : payload),
             In (200%N, pl) [(500%N, q)] -> False).
  { intros e q [H | []]. discriminate. }
  destruct op; try (exfalso; apply Hop; reflexivity).
  - rewrite serve_translate in *.
    destruct (negb _ || _ || _); [destruct Hin as [H | []]; discriminate |].
    destruct (render (translate_template b)) as [e | prompt].
    { rewrite responses_caught in Hin. destruct (Hbad e _ Hin). }
    rewrite calls_guarded_call. rewrite responses_guarded_call in Hin.
    destruct (p [] _ _) as [e | raw]; [destruct (Hbad e _ Hin) |].
    destruct Hin as [H | []]. inversion H.
    exists [raw], [trim raw]. repeat split; auto.
  - rewrite serve_summarize in *.
    destruct (negb _ || _); [destruct Hin as [H | []]; discriminate |].
    destruct (render (summarize_template b)) as [e | prompt]; [destruct Hin |].
    rewrite calls_guarded_call. rewrite responses_guarded_call in Hin.
    destruct (p [] _ _) as [e | raw]; [destruct (Hbad e _ Hin) |].
    destruct (strict_equals _ _ || _).
    { destruct Hin as [H | []]. inversion H.
      exists [raw], [trim raw]. repeat split; auto. }
    destruct (render (key_points_template b)) as [e | kp].
    { rewrite responses_caught in Hin. destruct (Hbad e _ Hin). }
    rewrite calls_guarded_call. rewrite responses_guarded_call in Hin.
    destruct (p [_] _ _) as [e | raw2]; [destruct (Hbad e _ Hin) |].
    destruct Hin as [H | []]. inversion H.
    exists [raw; raw2], [trim raw; trim raw2]. repeat split; auto.
    constructor; [apply trim_strips | apply Hone].
  - rewrite serve_analyze_image in *.
    destruct (negb _); [destruct Hin as [H | []]; discriminate |].
    rewrite calls_guarded_call. rewrite responses_guarded_call in Hin.
    destruct (p [] _ _) as [e | raw]; [destruct (Hbad e _ Hin) |].
    destruct Hin as [H | []]. inversion H.
    exists [raw], [trim raw]. repeat split; auto.
  - rewrite serve_generate_summary in *.
    destruct (render (generate_summary_template b)) as [e | prompt]; [destruct Hin |].
    rewrite calls_guarded_call. rewrite responses_guarded_call in Hin.
    destruct (p [] _ _) as [e | raw]; [destruct (Hbad e _ Hin) |].
    destruct Hin as [H | []]. inversion H.
    exists [raw], [trim raw]. repeat split; auto.
  - rewrite serve_optimize_skills in *.
    destruct (render (optimize_skills_template b)) as [e | prompt]; [destruct Hin |].
    rewrite calls_guarded_call. rewrite responses_guarded_call in Hin.
    destruct (p [] _ _) as [e | raw]; [destruct (Hbad e _ Hin) |].
    destruct Hin as [H | []]. inversion H.
    exists [raw], [trim raw]. repeat split; auto.
Qed.

(** *** Requests and plans *)

Lemma requests_guarded_call (p : provider) (op : operation) (past : list event)
      (m : jsstring) (c : content) (ok : jsstring -> list event) :
  requests (guarded_call p op past m c ok)
  = (m, c) :: match p past m c with inl _ => [] | inr raw => requests (ok raw) end.
Proof.
  unfold requests. rewrite calls_guarded_call. simpl.
  destruct (p past m c); reflexivity.
Qed.

Lemma requests_caught (op : operation) (e : js_error) : requests (caught op e) = [].
Proof. unfold requests. rewrite calls_caught. reflexivity. Qed.

(** What a run requests is an initial part of the plan, and a plan that is
    not empty is at least started. *)
Lemma requests_follow_plan (p : provider) (op : operation) (b : body) :
  exists n,
    requests (serve p op b) = firstn n (plan op b)
    /\ (plan op b <> [] -> 0 < n).
Proof.
  destruct op; unfold plan.
  - rewrite serve_translate.
    destruct (negb _ || _ || _); [exists 0; split; [reflexivity | tauto] |].
    destruct (render (translate_template b)).
    { rewrite requests_caught. exists 0. split; [reflexivity | tauto]. }
    rewrite requests_guarded_call. exists 1.
    split; [| lia]. destruct (p [] _ _); reflexivity.
  - rewrite serve_summarize.
    destruct (negb _ || _); [exists 0; split; [reflexivity | tauto] |].
    destruct (render (summarize_template b)) as [e | prompt];
      [exists 0; split; [reflexivity | tauto] |].
    rewrite requests_guarded_call.
    destruct (p [] _ _) as [e | raw]; [exists 1; split; [reflexivity | lia] |].
    destruct (strict_equals _ _ || _); [exists 1; split; [reflexivity | lia] |].
    destruct (render (key_points_template b)) as [e | kp].
    { rewrite requests_caught. exists 1. split; [reflexivity | lia]. }
    rewrite requests_guarded_call. exists 2.
    split; [| lia]. destruct (p [_] _ _); reflexivity.
  - rewrite serve_analyze_image.
    destruct (negb _); [exists 0; split; [reflexivity | tauto] |].
    rewrite requests_guarded_call. exists 1.
    split; [| lia]. destruct (p [] _ _); reflexivity.
  - rewrite serve_analyze_audio. exists 0. split; [| tauto].
    unfold requests. rewrite calls_app. destruct (negb _); reflexivity.
  - rewrite serve_generate_summary.
    destruct (render (generate_summary_template b));
      [exists 0; split; [reflexivity | tauto] |].
    rewrite requests_guarded_call. exists 1.
    split; [| lia]. destruct (p [] _ _); reflexivity.
  - rewrite serve_optimize_skills.
    destruct (render (optimize_skills_template b));
      [exists 0; split; [reflexivity | tauto] |].
    rewrite requests_guarded_call. exists 1.
    split; [| lia]. destruct (p [] _ _); reflexivity.
Qed.

Ltac same_fields H b1 :=
  repeat match goal with
         | |- context [field b1 ?f] => rewrite (H f) by (simpl; tauto)
         end.

Lemma plan_depends_on_inputs (op : operation) (b1 b2 : body) :
  (forall f, In f (inputs op) -> field b1 f = field b2 f) ->
  plan op b1 = plan op b2.
Proof.
  intros H.
  destruct op; unfold plan, translate_template, summarize_template, text_tail,
    key_points_template, generate_summary_template, optimize_skills_template;
    same_fields H b1; reflexivity.
Qed.

Lemma nth_error_firstn_some {A : Type} (n i : nat) (l : list A) (a : A) :
  nth_error (firstn n l) i = Some a -> nth_error l i = Some a.
Proof.
  revert i l. induction n as [| n IH]; intros i l; simpl.
  - destruct i; discriminate.
  - destruct l as [| x l]; [destruct i; discriminate |].
    destruct i as [| i]; simpl; auto.
Qed.

Lemma hd_error_firstn {A : Type} (n : nat) (l : list A) :
  0 < n -> hd_error (firstn n l) = hd_error l.
Proof.
  destruct n as [| n]; [lia |]. destruct l; reflexivity.
Qed.

(** C6.  Prompt building is deterministic.  Two requests of one operation
    whose input fields have identical values give rise to identical generation
    requests, prompt strings included, whatever else the bodies hold and
    whatever the provider answers: the first request of one run is the first
    request of the other, and wherever both runs make an i-th request the two
    are the same. *)
Theorem generation_requests_are_deterministic (op : operation) (b1 b2 : body)
        (p1 p2 : provider) :
  (forall f, In f (inputs op) -> field b1 f = field b2 f) ->
  hd_error (requests (serve p1 op b1)) = hd_error (requests (serve p2 op b2))
  /\ (forall i r1 r2,
        nth_error (requests (serve p1 op b1)) i = Some r1 ->
        nth_error (requests (serve p2 op b2)) i = Some r2 ->
        r1 = r2).
Proof.
  intros Hsame.
  destruct (requests_follow_plan p1 op b1) as [n1 [H1 Hn1]].
  destruct (requests_follow_plan p2 op b2) as [n2 [H2 Hn2]].
  rewrite H1, H2. rewrite (plan_depends_on_inputs op b1 b2 Hsame) in *.
  split.
  - destruct (plan op b2) as [| r rest] eqn:Hplan.
    + rewrite !firstn_nil. reflexivity.
    + rewrite !hd_error_firstn; [reflexivity | |];
        first [apply Hn1 | apply Hn2]; discriminate.
  - intros i r1 r2 Hr1 Hr2.
    apply nth_error_firstn_some in Hr1. apply nth_error_firstn_some in Hr2.
    congruence.
Qed.

(** C8, as the code has it.  The two resume endpoints never answer 400.
    When each of the endpoint's input fields converts to a string, an absent
    field converting to the text undefined, the prompt is built from them and
    exactly one generation call is made with it. *)
Theorem resume_endpoints_do_not_validate (p : provider) (op : operation) (b : body) :
  op = GenerateResumeSummary \/ op = OptimizeSkills ->
  (forall pl, ~ In (400%N, pl) (responses (serve p op b)))
  /\ ((forall f, In f (inputs op) -> convertible (field b f)) ->
      exists prompt o,
        render (resume_template op b) = inr prompt
        /\ calls (serve p op b) = [(TEXT_MODEL_NAME, CString prompt, o)]).
Proof.
  intros [-> | ->].
  - rewrite serve_generate_summary. simpl resume_template.
    split.
    + intros pl.
      destruct (render (generate_summary_template b)); [intros [] |].
      rewrite responses_guarded_call.
      destruct (p [] _ _); intros [H | []]; discriminate.
    + intros Hconv.
      destruct (Hconv role) as [r Hr]; [simpl; tauto |].
      destruct (Hconv experienceLevel) as [x Hx]; [simpl; tauto |].
      destruct (Hconv existingSummary) as [s Hs]; [simpl; tauto |].
      assert (Hrender : exists prompt,
                 render (generate_summary_template b) = inr prompt).
      { unfold generate_summary_template. autorewrite with render.
        rewrite Hr, Hx, Hs. eexists; reflexivity. }
      destruct Hrender as [prompt Hprompt]. rewrite Hprompt.
      exists prompt, (p [] TEXT_MODEL_NAME (CString prompt)).
      split; [reflexivity |].
      rewrite calls_guarded_call. destruct (p [] _ _); reflexivity.
  - rewrite serve_optimize_skills. simpl resume_template.
    split.
    + intros pl.
      destruct (render (optimize_skills_template b)); [intros [] |].
      rewrite responses_guarded_call.
      destruct (p [] _ _); intros [H | []]; discriminate.
    + intros Hconv.
      destruct (Hconv jobDescriptionKeywords) as [k Hk]; [simpl; tauto |].
      destruct (Hconv currentSkills) as [c Hc]; [simpl; tauto |].
      assert (Hrender : exists prompt,
                 render (optimize_skills_template b) = inr prompt).
      { unfold optimize_skills_template. autorewrite with render.
        rewrite Hk, Hc. eexists; reflexivity. }
      destruct Hrender as [prompt Hprompt]. rewrite Hprompt.
      exists prompt, (p [] TEXT_MODEL_NAME (CString prompt)).
      split; [reflexivity |].
      rewrite calls_guarded_call. destruct (p [] _ _); reflexivity.
Qed.

(** ** Further properties of the handlers *)

(** *** How a handler's promise settles *)

Lemma settles_translate (p : provider) (b : body) : settles p Translate b = inr tt.
Proof.
  unfold settles. simpl handler. unfold translate, template.
  destruct (negb _ || _ || _); [reflexivity |].
  destruct (render (translate_template b)) as [e | prompt]; [settle_call e |].
  simpl.
  destruct (p [] TEXT_MODEL_NAME (CString prompt)) as [e | raw]; settle_call e.
Qed.

Lemma settles_analyze_image (p : provider) (b : body) :
  settles p AnalyzeImage b = inr tt.
Proof.
  unfold settles. simpl handler. unfold analyze_image.
  destruct (negb _); [reflexivity |].
  simpl.
  destruct (p [] VISION_MODEL_NAME _) as [e | raw]; settle_call e.
Qed.

Lemma settles_analyze_audio (p : provider) (b : body) :
  settles p AnalyzeAudio b = inr tt.
Proof.
  unfold settles. simpl handler. unfold analyze_audio.
  destruct (negb _); reflexivity.
Qed.

Lemma settles_summarize (p : provider) (b : body) :
  settles p Summarize b =
  if negb (to_boolean (field b text)) || negb (to_boolean (field b summaryType))
  then inr tt
  else match render (summarize_template b) with
       | inl e => inl e
       | inr _ => inr tt
       end.
Proof.
  unfold settles. simpl handler. unfold summarize, template.
  destruct (negb _ || _); [reflexivity |].
  destruct (render (summarize_template b)) as [e | prompt]; [reflexivity |].
  simpl.
  destruct (p [] TEXT_MODEL_NAME (CString prompt)) as [e | raw]; [settle_call e | simpl].
  destruct (strict_equals _ _ || _); [reflexivity |].
  destruct (render (key_points_template b)) as [e | kp]; [settle_call e | simpl].
  destruct (p _ TEXT_MODEL_NAME (CString kp)) as [e | raw2]; settle_call e.
Qed.

Lemma settles_generate_summary (p : provider) (b : body) :
  settles p GenerateResumeSummary b =
  match render (generate_summary_template b) with
  | inl e => inl e
  | inr _ => inr tt
  end.
Proof.
  unfold settles. simpl handler. unfold generate_summary, template.
  destruct (render (generate_summary_template b)) as [e | prompt]; [reflexivity |].
  simpl.
  destruct (p [] TEXT_MODEL_NAME (CString prompt)) as [e | raw]; reflexivity.
Qed.

Lemma settles_optimize_skills (p : provider) (b : body) :
  settles p OptimizeSkills b =
  match render (optimize_skills_template b) with
  | inl e => inl e
  | inr _ => inr tt
  end.
Proof.
  unfold settles. simpl handler. unfold optimize_skills, template.
  destruct (render (optimize_skills_template b)) as [e | prompt]; [reflexivity |].
  simpl.
  destruct (p [] TEXT_MODEL_NAME (CString prompt)) as [e | raw]; reflexivity.
Qed.

(** *** Conversions that throw *)

Lemma json_to_string_cons (x : json) (rest : list json) :
  json_to_string (JArr (x :: rest)) =
  match (match x with JNull => inr [] | _ => json_to_string x end) with
  | inl e => inl e
  | inr s =>
      match rest with
      | [] => inr s
      | _ => match json_to_string (JArr rest) with
             | inl e => inl e
             | inr r => inr (s ++ lit "," ++ r)
             end
      end
  end.
Proof. reflexivity. Qed.

(** Induction on JSON values, through their arrays and objects. *)
Section JsonInduction.

Variable P : json -> Prop.
Hypothesis Hnull : P JNull.
Hypothesis Hbool : forall b, P (JBool b).
Hypothesis Hnum : forall n, P (JNum n).
Hypothesis Hstr : forall s, P (JStr s).
Hypothesis Harr : forall items, Forall P items -> P (JArr items).
Hypothesis Hobj : forall props, Forall (fun kv => P (snd kv)) props -> P (JObj props).

Fixpoint json_induction (v : json) : P v :=
  match v with
  | JNull => Hnull
  | JBool b => Hbool b
  | JNum n => Hnum n
  | JStr s => Hstr s
  | JArr items =>
      Harr
        ((fix all (l : list json) : Forall P l :=
            match l with
            | [] => Forall_nil P
            | x :: r => Forall_cons x (json_induction x) (all r)
            end) items)
  | JObj props =>
      Hobj
        ((fix all (l : list (jsstring * json)) : Forall (fun kv => P (snd kv)) l :=
            match l with
            | [] => Forall_nil _
            | (k, x) :: r =>
                Forall_cons (P := fun kv => P (snd kv)) (k, x) (json_induction x) (all r)
            end) props)
  end.

End JsonInduction.

(** The only error ToString raises on a JSON value is the TypeError. *)
Lemma json_to_string_error (v : json) :
  forall e, json_to_string v = inl e -> e = type_error.
Proof.
  induction v as [| [|] | n | s | items IH | props _] using json_induction;
    intros e H; try discriminate H.
  - induction IH as [| x rest Hx _ IHrest]; [discriminate H |].
    rewrite json_to_string_cons in H.
    destruct (match x with JNull => inr [] | _ => json_to_string x end)
      as [e' | s] eqn:Ex.
    + inversion H; subst e'.
      destruct x; try discriminate Ex; exact (Hx _ Ex).
    + destruct rest as [| y rest']; [discriminate H |].
      destruct (json_to_string (JArr (y :: rest'))) as [e' | r] eqn:Hrest;
        [| discriminate H].
      inversion H; subst e'. apply IHrest. reflexivity.
  - simpl in H. destruct (own_property props (lit "toString"));
      [| discriminate H].
    inversion H. reflexivity.
Qed.

Lemma to_string_error (v : value) (e : js_error) :
  to_string v = inl e -> e = type_error.
Proof.
  destruct v as [j |]; simpl; [apply json_to_string_error | discriminate].
Qed.

Lemma not_convertible (v : value) :
  ~ convertible v <-> to_string v = inl type_error.
Proof.
  unfold convertible. split.
  - intros H. destruct (to_string v) as [e | s] eqn:Hv.
    + rewrite (to_string_error _ Hv). reflexivity.
    + exfalso. apply H. exists s. reflexivity.
  - intros H [s Hs]. congruence.
Qed.

Lemma render_error (ps : list piece) (e : js_error) :
  render ps = inl e -> e = type_error /\ exists v, In (Sub v) ps /\ ~ convertible v.
Proof.
  induction ps as [| [s | v] ps IH]; autorewrite with render; intros H.
  - discriminate H.
  - destruct (render ps) as [e' | r]; [| discriminate H].
    inversion H; subst e'. destruct (IH eq_refl) as [He [v [Hin Hv]]].
    split; [exact He |]. exists v. split; [right; exact Hin | exact Hv].
  - destruct (to_string v) as [e' | s] eqn:Hv.
    + inversion H; subst e'. split; [exact (to_string_error _ Hv) |].
      exists v. split; [left; reflexivity |].
      apply not_convertible. rewrite Hv, (to_string_error _ Hv). reflexivity.
    + destruct (render ps) as [e' | r]; [| discriminate H].
      inversion H; subst e'. destruct (IH eq_refl) as [He [w [Hin Hw]]].
      split; [exact He |]. exists w. split; [right; exact Hin | exact Hw].
Qed.

Lemma render_throws (ps : list piece) (v : value) :
  In (Sub v) ps -> ~ convertible v -> render ps = inl type_error.
Proof.
  intros Hin Hv.
  destruct (render ps) as [e | s] eqn:Hr.
  - destruct (render_error _ Hr) as [-> _]. reflexivity.
  - exfalso. revert s Hr.
    induction ps as [| [t | w] ps IH]; [destruct Hin | |];
      intros s; autorewrite with render.
    + destruct Hin as [Heq | Hin]; [discriminate Heq |].
      destruct (render ps) as [e | r]; [discriminate |].
      intros _. exact (IH Hin r eq_refl).
    + destruct (to_string w) as [e | t] eqn:Hw; [discriminate |].
      destruct Hin as [Heq | Hin].
      * inversion Heq; subst w. intros _. apply Hv. exists t. exact Hw.
      * destruct (render ps) as [e | r]; [discriminate |].
        intros _. exact (IH Hin r eq_refl).
Qed.

(** *** Exploring the runs of a handler *)

Ltac open_serve :=
  rewrite ?serve_translate, ?serve_summarize, ?serve_analyze_image,
    ?serve_analyze_audio, ?serve_generate_summary, ?serve_optimize_skills,
    ?settles_translate, ?settles_summarize, ?settles_analyze_image,
    ?settles_analyze_audio, ?settles_generate_summary, ?settles_optimize_skills;
  unfold guarded_call, caught.

Ltac explore :=
  repeat first
    [ progress cbn [negb orb andb logs_details]
    | match goal with
      | |- context [to_boolean (field ?b ?f)] =>
          destruct (to_boolean (field b f)) eqn:?
      | |- context [strict_equals ?v ?s] => destruct (strict_equals v s) eqn:?
      | |- context [has_response_data ?e] => destruct (has_response_data e) eqn:?
      | |- context [match ?x with inl _ => _ | inr _ => _ end] =>
          destruct x eqn:?
      end ].

Lemma ends_with_response (tr : list event) (st : N) (pl : payload) :
  last tr (Waited 0) = Sent st pl ->
  responses (removelast tr) = [] ->
  exists pre st' pl', tr = pre ++ [Sent st' pl'] /\ responses pre = [].
Proof.
  intros Hlast Hpre.
  destruct tr as [| ev tr]; [discriminate Hlast |].
  exists (removelast (ev :: tr)), st, pl. split; [| exact Hpre].
  rewrite <- Hlast. apply app_removelast_last. discriminate.
Qed.

(** X2.  A handler sends at most one response, and sending it is the last
    thing it does: no generation call, log or timer follows the response. *)
Theorem response_is_sent_once_and_last (p : provider) (op : operation) (b : body) :
  serve p op b = []
  \/ exists pre st pl, serve p op b = pre ++ [Sent st pl] /\ responses pre = [].
Proof.
  destruct op; open_serve; explore;
    first [ left; reflexivity
          | right; eapply ends_with_response; simpl; reflexivity ].
Qed.

(** *** Templates and their substitutions *)

Lemma template_substitutes (op : operation) (b : body) (v : value) :
  In (Sub v) (prompt_template op b) <->
  exists f, In f (substituted op) /\ v = field b f.
Proof.
  destruct op; simpl prompt_template; simpl substituted;
    unfold translate_template, summarize_template, text_tail,
      generate_summary_template, optimize_skills_template;
    repeat match goal with
           | |- context [if ?c then _ else _] => destruct c
           end;
    simpl; split;
    try (intros H;
         repeat match type of H with
                | _ \/ _ => destruct H as [H | H]
                end;
         first [ contradiction | discriminate H
               | inversion H; eexists; split; [| reflexivity]; simpl; tauto ]);
    intros [f [Hin ->]];
    repeat match type of Hin with
           | _ \/ _ => destruct Hin as [Hin | Hin]
           end;
    first [ contradiction | subst f; tauto ].
Qed.

Lemma template_error (op : operation) (b : body) (e : js_error) :
  render (prompt_template op b) = inl e ->
  e = type_error
  /\ exists f, In f (substituted op) /\ ~ convertible (field b f).
Proof.
  intros H. destruct (render_error _ H) as [He [v [Hin Hv]]].
  split; [exact He |].
  apply template_substitutes in Hin. destruct Hin as [f [Hf ->]].
  exists f. split; assumption.
Qed.

Lemma template_throws (op : operation) (b : body) (f : field_name) :
  In f (substituted op) -> ~ convertible (field b f) ->
  render (prompt_template op b) = inl type_error.
Proof.
  intros Hf Hv. apply render_throws with (v := field b f); [| exact Hv].
  apply template_substitutes. exists f. split; [exact Hf | reflexivity].
Qed.

(** Once the summary prompt of a request is built, building its key-points
    prompt cannot throw: both substitute the same field. *)
Lemma key_points_template_renders (b : body) (prompt : jsstring) (e : js_error) :
  render (summarize_template b) = inr prompt ->
  render (key_points_template b) = inl e -> False.
Proof.
  intros Hs Hk. destruct (render_error _ Hk) as [_ [v [Hin Hv]]].
  assert (v = field b text) as ->.
  { unfold key_points_template in Hin. simpl in Hin.
    destruct Hin as [H | [H | [H | []]]]; try discriminate H.
    inversion H. reflexivity. }
  pose proof (@template_throws Summarize b text (or_introl eq_refl) Hv) as Ht.
  simpl prompt_template in Ht. congruence.
Qed.

Ltac in_cases H :=
  simpl in H;
  repeat match type of H with
         | _ \/ _ => destruct H as [H | H]
         end;
  try contradiction; try discriminate H.

(** X1.  A handler answers 400 exactly when one of its required fields is
    falsy: absent, null, false, the empty string or a zero number.  The 400
    response is then the only thing that happens. *)
Theorem bad_request_iff_falsy_required_field (p : provider) (op : operation)
        (b : body) :
  ((exists f, In f (required op) /\ to_boolean (field b f) = false) ->
   serve p op b = [Sent 400 [(lit "error", JStr (missing_message op))]])
  /\ ((exists pl, In (400%N, pl) (responses (serve p op b))) ->
      exists f, In f (required op) /\ to_boolean (field b f) = false).
Proof.
  split.
  - intros [f [Hin Hf]]. unfold serve.
    rewrite (falsy_required_field_rejected p op b f Hin Hf). reflexivity.
  - destruct op; open_serve; explore; intros [pl H]; in_cases H;
      eexists; (split; [| eassumption]); simpl; tauto.
Qed.

(** X3.  Translate, analyze-image and analyze-audio answer every request:
    the handler's promise is fulfilled and exactly one response is sent,
    whatever the body holds and whatever the provider does. *)
Theorem request_is_always_answered (p : provider) (op : operation) (b : body) :
  op = Translate \/ op = AnalyzeImage \/ op = AnalyzeAudio ->
  settles p op b = inr tt /\ List.length (responses (serve p op b)) = 1.
Proof.
  intros [-> | [-> | ->]]; open_serve; explore; split; reflexivity.
Qed.

(** X4.  A handler either fulfils its promise having sent exactly one
    response, or it rejects with the TypeError of a failed string conversion.
    The latter happens only in summarize and the two resume handlers, whose
    template is rendered outside the [try] block, and then nothing at all has
    happened: no log, no generation call, no response. *)
Theorem handler_answers_unless_conversion_throws (p : provider) (op : operation)
        (b : body) :
  (settles p op b = inr tt /\ List.length (responses (serve p op b)) = 1)
  \/ (settles p op b = inl type_error
      /\ serve p op b = []
      /\ renders_outside_try op = true
      /\ exists f, In f (substituted op) /\ ~ convertible (field b f)).
Proof.
  destruct op; open_serve; explore;
    try (left; split; reflexivity);
    right;
    match goal with
    | H : render ?t = inl ?e |- _ =>
        first [ destruct (@template_error Summarize b e H) as [-> Hf]
              | destruct (@template_error GenerateResumeSummary b e H) as [-> Hf]
              | destruct (@template_error OptimizeSkills b e H) as [-> Hf] ]
    end;
    repeat split; exact Hf.
Qed.

(** X5.  Every response is one of three envelopes: status 200 with exactly
    the operation's result fields, all of them strings; status 400 with the
    operation's missing-field message, sent only by an operation that has
    required fields; or status 500 with the operation's failure message and
    the message of an error as details. *)
Theorem every_response_is_an_envelope (p : provider) (op : operation) (b : body)
        (st : N) (pl : payload) :
  In (st, pl) (responses (serve p op b)) ->
  (st = 200%N /\ map fst pl = success_keys op
   /\ Forall (fun kv => is_text (snd kv)) pl)
  \/ (st = 400%N /\ pl = [(lit "error", JStr (missing_message op))]
      /\ required op <> [])
  \/ (st = 500%N
      /\ exists e, pl = [(lit "error", JStr (failure_message op));
                         (lit "details", JStr (err_message e))]).
Proof.
  destruct op; open_serve; explore; intros H; in_cases H;
    inversion H; subst; clear H;
    first [ left; split; [reflexivity |]; split; [reflexivity |];
            repeat constructor; eexists; reflexivity
          | right; left; split; [reflexivity |]; split;
            [reflexivity | discriminate]
          | right; right; split; [reflexivity |]; eexists; reflexivity ].
Qed.

(** X6.  A handler makes at most two generation calls for summarize, none
    for analyze-audio and at most one otherwise.  Every call asks for the
    vision model in analyze-image and for the text model elsewhere, and
    outside analyze-image what is sent is a bare prompt string. *)
Theorem generation_calls_are_bounded (p : provider) (op : operation) (b : body) :
  List.length (calls (serve p op b)) <= max_calls op
  /\ Forall (fun call => fst (fst call) = model_of op) (calls (serve p op b))
  /\ (op <> AnalyzeImage ->
      Forall (fun call => exists prompt, snd (fst call) = CString prompt)
             (calls (serve p op b))).
Proof.
  destruct op; open_serve; explore; simpl;
    (split; [lia |]); (split; [repeat constructor |]);
    intros Hop; try (exfalso; apply Hop; reflexivity);
    repeat constructor; eexists; reflexivity.
Qed.

(** X7.  There is no retry and no fallback: a generation call that raises
    is the last call of the request. *)
Theorem failed_call_is_the_last_call (p : provider) (op : operation) (b : body)
        (i : nat) (m : jsstring) (c : content) (e : js_error) :
  nth_error (calls (serve p op b)) i = Some (m, c, inl e) ->
  List.length (calls (serve p op b)) = S i.
Proof.
  destruct op; open_serve; explore; simpl;
    destruct i as [| [| [| i]]]; simpl; intros H;
    first [ discriminate H | reflexivity ].
Qed.

(** X8.  A 500 response always has a cause.  Either a generation call of
    the request raised, and the details are that error's message; or, in
    translate only, a substituted field could not be converted to a string,
    no call was made and the details are the TypeError's message. *)
Theorem server_error_has_a_cause (p : provider) (op : operation) (b : body)
        (pl : payload) :
  In (500%N, pl) (responses (serve p op b)) ->
  (exists m c e,
      In (m, c, inl e) (calls (serve p op b))
      /\ pl = failure_envelope (failure_message op) (err_message e))
  \/ (op = Translate
      /\ calls (serve p op b) = []
      /\ pl = failure_envelope (failure_message Translate) to_primitive_message
      /\ exists f, In f (substituted Translate) /\ ~ convertible (field b f)).
Proof.
  destruct op; open_serve; explore; intros H; in_cases H;
    inversion H; subst; clear H;
    try (exfalso; eapply key_points_template_renders; eassumption);
    first [ solve [left; do 3 eexists; split; [simpl; eauto | reflexivity]]
          | right;
            match goal with
            | Hr : render (translate_template b) = inl ?e |- _ =>
                destruct (@template_error Translate b e Hr) as [-> Hf]
            end;
            repeat split; exact Hf ].
Qed.

(** X9.  When a translate request passes validation but one of its three
    fields cannot be converted to a string, the conversion error is caught: the
    answer is 500 with the TypeError's message as details, and the provider is
    not called. *)
Theorem translate_conversion_error_is_500 (p : provider) (b : body)
        (f : field_name) :
  (forall g, In g (required Translate) -> to_boolean (field b g) = true) ->
  In f (substituted Translate) ->
  ~ convertible (field b f) ->
  responses (serve p Translate b)
  = [(500%N, [(lit "error", JStr (failure_message Translate));
              (lit "details", JStr to_primitive_message)])]
  /\ calls (serve p Translate b) = [].
Proof.
  intros Hreq Hf Hv.
  pose proof (@template_throws Translate b f Hf Hv) as Ht.
  simpl prompt_template in Ht.
  rewrite serve_translate, Ht.
  rewrite (Hreq text), (Hreq fromLang), (Hreq toLang) by (simpl; tauto).
  cbn [negb orb]. rewrite responses_caught, calls_caught.
  split; reflexivity.
Qed.

(** X10.  In summarize and the two resume handlers the same conversion
    error is not caught: when the request passes validation and a substituted
    field cannot be converted to a string, the handler rejects with the
    TypeError and nothing happens, not even a response. *)
Theorem conversion_error_outside_try_is_unhandled (p : provider) (op : operation)
        (b : body) (f : field_name) :
  renders_outside_try op = true ->
  (forall g, In g (required op) -> to_boolean (field b g) = true) ->
  In f (substituted op) ->
  ~ convertible (field b f) ->
  serve p op b = [] /\ settles p op b = inl type_error.
Proof.
  intros Hop Hreq Hf Hv.
  pose proof (@template_throws op b f Hf Hv) as Ht.
  destruct op; try discriminate Hop; simpl prompt_template in Ht; open_serve;
    rewrite Ht; try (split; reflexivity).
  rewrite (Hreq text), (Hreq summaryType) by (simpl; tauto).
  split; reflexivity.
Qed.

(** X11.  A handler reads nothing of the body but its operation's input
    fields: two bodies that agree on them are served identically by any one
    provider, event for event. *)
Theorem handler_reads_only_its_inputs (p : provider) (op : operation)
        (b1 b2 : body) :
  (forall f, In f (inputs op) -> field b1 f = field b2 f) ->
  serve p op b1 = serve p op b2 /\ settles p op b1 = settles p op b2.
Proof.
  intros H.
  destruct op;
    rewrite ?serve_translate, ?serve_summarize, ?serve_analyze_image,
      ?serve_analyze_audio, ?serve_generate_summary, ?serve_optimize_skills,
      ?settles_translate, ?settles_summarize, ?settles_analyze_image,
      ?settles_analyze_audio, ?settles_generate_summary, ?settles_optimize_skills;
    unfold translate_template, summarize_template, text_tail,
      key_points_template, generate_summary_template, optimize_skills_template;
    same_fields H b1; split; reflexivity.
Qed.

Lemma trim_blank (s : jsstring) : forallb is_whitespace s = true -> trim s = [].
Proof.
  intros H. unfold trim.
  rewrite <- (app_nil_r s), trim_start_whitespace_app by exact H.
  reflexivity.
Qed.

(** X12.  An output of the provider that is blank, empty or white space
    only, is not treated as a failure: the answer is still 200, and the text
    it carries is the empty string. *)
Theorem blank_output_gives_empty_text (p : provider) (op : operation) (b : body)
        (pl : payload) :
  op <> AnalyzeAudio ->
  In (200%N, pl) (responses (serve p op b)) ->
  (forall m c raw, In (m, c, inr raw) (calls (serve p op b)) ->
                   forallb is_whitespace raw = true) ->
  pl <> [] /\ Forall (fun kv => snd kv = JStr []) pl.
Proof.
  destruct op; open_serve; explore; intros Hop Hin Hblank; in_cases Hin;
    try (exfalso; apply Hop; reflexivity);
    inversion Hin; subst; clear Hin; simpl in Hblank;
    (split; [discriminate |]);
    repeat match goal with
           | |- context [trim ?r] =>
               rewrite (@trim_blank r) by (eapply Hblank; eauto)
           end;
    repeat constructor.
Qed.

(** X13.  Analyze-image forwards the image as it was received: whatever
    truthy value [imageData] holds becomes the data of the one attachment,
    undecoded and unchecked.  The media type is [imageMimeType] itself when it
    is truthy, of whatever type, and image/jpeg when it is absent or falsy. *)
Theorem image_is_forwarded_as_received (p : provider) (b : body) :
  to_boolean (field b imageData) = true ->
  exists o,
    calls (serve p AnalyzeImage b)
    = [(VISION_MODEL_NAME,
        CParts [PText image_prompt;
                PInlineData (field b imageData)
                  (if to_boolean (field b imageMimeType)
                   then field b imageMimeType
                   else Some (JStr (lit "image/jpeg")))],
        o)].
Proof.
  intros Hdata. rewrite serve_analyze_image, Hdata. cbn [negb].
  rewrite calls_guarded_call. unfold or_default.
  destruct (p [] _ _) as [e | raw]; eexists; reflexivity.
Qed.

(** X14.  Free text reaches the prompt unmodified.  When the three fields
    of a translate request are non-empty strings, the one generation request
    is the text model with the template's words around the strings as they
    are: nothing is escaped, trimmed or cut. *)
Theorem translate_prompt_of_strings (p : provider) (b : body) (t f l : jsstring) :
  field b text = Some (JStr t) ->
  field b fromLang = Some (JStr f) ->
  field b toLang = Some (JStr l) ->
  t <> [] -> f <> [] -> l <> [] ->
  requests (serve p Translate b)
  = [(TEXT_MODEL_NAME,
      CString (lit "Translate the following text from " ++ f ++ lit " to " ++ l
                 ++ lit ". Only provide the translated text, nothing else."
                 ++ [LF] ++ lit "Text: " ++ [DQUOTE] ++ t ++ [DQUOTE]))].
Proof.
  intros Ht Hf Hl Hte Hfe Hle.
  rewrite serve_translate. unfold translate_template.
  rewrite Ht, Hf, Hl. autorewrite with render.
  destruct t as [| ct t]; [contradiction |].
  destruct f as [| cf f]; [contradiction |].
  destruct l as [| cl l]; [contradiction |].
  simpl to_boolean. simpl to_string. cbn [negb orb].
  rewrite requests_guarded_call.
  rewrite <- !app_assoc.
  destruct (p [] _ _); reflexivity.
Qed.


(** X16.  The handler's error line is written to the console exactly when
    it answers 500: validation failures and successes log no error. *)
Theorem error_is_logged_iff_500 (p : provider) (op : operation) (b : body) :
  In (Logged LError (log_label op)) (serve p op b)
  <-> exists pl, In (500%N, pl) (responses (serve p op b)).
Proof.
  destruct op; open_serve; explore; (split; [intros H | intros [pl H]]);
    in_cases H;
    first [ solve [eexists; simpl; eauto] | solve [simpl; auto] ].
Qed.

(** X17.  Analyze-audio writes its warning exactly when [audioData] is
    falsy, and it never logs an error. *)
Theorem audio_warns_iff_no_data (p : provider) (b : body) :
  ((exists msg, In (Logged LWarn msg) (serve p AnalyzeAudio b))
   <-> to_boolean (field b audioData) = false)
  /\ (forall msg, ~ In (Logged LError msg) (serve p AnalyzeAudio b)).
Proof.
  open_serve. explore; split;
    try (intros msg H; in_cases H);
    (split; [intros [msg H]; in_cases H; reflexivity | intros H]);
    first [ discriminate H | eexists; simpl; eauto ].
Qed.

(** X20.  An AI-backed handler answers 200 exactly when it made at least
    one generation call and none of its calls raised. *)
Theorem success_iff_all_calls_succeed (p : provider) (op : operation) (b : body) :
  op <> AnalyzeAudio ->
  ((exists pl, In (200%N, pl) (responses (serve p op b)))
   <-> (calls (serve p op b) <> []
        /\ forall m c e, ~ In (m, c, inl e) (calls (serve p op b)))).
Proof.
  destruct op; open_serve; explore; intros Hop;
    try (exfalso; apply Hop; reflexivity);
    (split; [intros [pl H]; in_cases H | intros [Hsome Hnone]]);
    try (exfalso; eapply key_points_template_renders; eassumption);
    first [ solve [simpl; split; [discriminate |]; intros m c e Hc; in_cases Hc]
          | solve [exfalso; apply Hsome; reflexivity]
          | solve [exfalso; eapply Hnone; simpl; eauto]
          | solve [eexists; simpl; left; reflexivity] ].
Qed.

End Contract.

(** ** The contract at sample requests *)

(** The examples of the specification: a provider answering Bonjour to a
    translation, and bullet points reused as key points. *)
Example translate_hello :
  responses (serve bonjour Translate hello_translate)
  = [(200%N, [(lit "translatedText", str "Bonjour")])].
Proof. reflexivity. Qed.

Example summarize_bullets :
  responses (serve (fun _ _ _ => inr (lit "- a" ++ [LF] ++ lit "- b"))
                   Summarize bullets_request)
  = [(200%N, [(lit "summary", JStr (lit "- a" ++ [LF] ++ lit "- b"));
              (lit "keyPoints", JStr (lit "- a" ++ [LF] ++ lit "- b"))])].
Proof. reflexivity. Qed.

Lemma missing_required_field_is_400_witness :
  In text (required Translate)
  /\ field translate_without_text text = None
  /\ responses (serve bonjour Translate translate_without_text)
     = [(400%N, error_envelope (missing_message Translate))]
  /\ missing_message Translate <> []
  /\ calls (serve bonjour Translate translate_without_text) = [].
Proof.
  split; [simpl; auto |]. split; [reflexivity |].
  apply (@missing_required_field_is_400 sample_engine bonjour Translate
           translate_without_text text); [simpl; auto | reflexivity].
Defined.

Lemma bullets_and_key_reuse_the_summary_witness :
  List.length (calls (serve bonjour Summarize bullets_request)) <= 1
  /\ (forall pl, In (200%N, pl) (responses (serve bonjour Summarize bullets_request)) ->
        (exists s, pl = [(lit "summary", JStr s); (lit "keyPoints", JStr s)])
        /\ List.length (calls (serve bonjour Summarize bullets_request)) = 1)
  /\ (to_boolean (field bullets_request text) = true ->
      (exists t, to_string (field bullets_request text) = inr t) ->
      List.length (calls (serve bonjour Summarize bullets_request)) = 1).
Proof.
  apply (@bullets_and_key_reuse_the_summary sample_engine bonjour bullets_request).
  left. reflexivity.
Defined.

(** C3, as stated, fails: the provider is out of quota, the first call
    raises, and a [brief] request has made one generation call, not two. *)
Lemma failed_summary_call_is_the_only_call :
  field brief_request summaryType = Some (str "brief")
  /\ List.length (calls (serve out_of_quota Summarize brief_request)) = 1
  /\ List.length (calls (serve out_of_quota Summarize brief_request)) <> 2.
Proof.
  split; [reflexivity |]. split; [reflexivity | discriminate].
Qed.

Lemma separate_key_points_call_witness :
  exists o1,
    let first := (TEXT_MODEL_NAME,
                  CString (summary_prompt (field brief_request summaryType) (lit "Hello")),
                  o1) in
    hd_error (calls (serve bonjour Summarize brief_request)) = Some first
    /\ (forall e, o1 = inl e -> calls (serve bonjour Summarize brief_request) = [first])
    /\ (forall r1, o1 = inr r1 ->
        exists o2,
          calls (serve bonjour Summarize brief_request)
          = [first; (TEXT_MODEL_NAME, CString (key_takeaways_prompt (lit "Hello")), o2)]
          /\ (forall r2, o2 = inr r2 ->
               responses (serve bonjour Summarize brief_request)
               = [(200%N, [(lit "summary", JStr (trim r1));
                           (lit "keyPoints", JStr (trim r2))])])).
Proof.
  apply (@separate_key_points_call sample_engine bonjour brief_request (lit "Hello"));
    first [reflexivity | discriminate].
Defined.

Lemma provider_failure_is_500_witness :
  responses (serve out_of_quota Translate hello_translate)
  = [(500%N, [(lit "error", JStr (failure_message Translate));
              (lit "details", JStr (err_message quota_error))])]
  /\ failure_message Translate <> [].
Proof.
  eapply (@provider_failure_is_500 sample_engine out_of_quota Translate hello_translate).
  left. reflexivity.
Defined.

Lemma generation_requests_are_deterministic_witness :
  hd_error (requests (serve bonjour Translate hello_translate))
  = hd_error (requests (serve out_of_quota Translate hello_translate_reordered))
  /\ (forall i r1 r2,
        nth_error (requests (serve bonjour Translate hello_translate)) i = Some r1 ->
        nth_error (requests (serve out_of_quota Translate hello_translate_reordered)) i
        = Some r2 ->
        r1 = r2).
Proof.
  apply (@generation_requests_are_deterministic sample_engine Translate
           hello_translate hello_translate_reordered bonjour out_of_quota).
  intros f [<- | [<- | [<- | []]]]; reflexivity.
Defined.

Lemma returned_text_is_trimmed_output_witness :
  exists raws texts,
    map snd (calls (serve bonjour Translate hello_translate)) = map inr raws
    /\ Forall2 strips raws texts
    /\ texts = map trim raws
    /\ [(lit "translatedText", str "Bonjour")] = envelope Translate texts.
Proof.
  apply (@returned_text_is_trimmed_output sample_engine bonjour Translate hello_translate).
  - discriminate.
  - left. reflexivity.
Defined.

(** C8, as stated, fails: converting [{"toString": null}] to a string
    throws while the prompt is built, outside the handler's [try]; the
    provider is not invoked and no response is sent. *)
Lemma resume_prompt_can_throw :
  calls (serve bonjour OptimizeSkills skills_with_toString) = []
  /\ responses (serve bonjour OptimizeSkills skills_with_toString) = []
  /\ settles bonjour OptimizeSkills skills_with_toString = inl type_error.
Proof.
  repeat split; reflexivity.
Qed.

Lemma resume_endpoints_do_not_validate_witness :
  (forall pl, ~ In (400%N, pl) (responses (serve bonjour GenerateResumeSummary no_fields)))
  /\ ((forall f, In f (inputs GenerateResumeSummary) -> convertible (field no_fields f)) ->
      exists prompt o,
        render (resume_template GenerateResumeSummary no_fields) = inr prompt
        /\ calls (serve bonjour GenerateResumeSummary no_fields)
           = [(TEXT_MODEL_NAME, CString prompt, o)]).
Proof.
  apply (@resume_endpoints_do_not_validate sample_engine bonjour
           GenerateResumeSummary no_fields).
  left. reflexivity.
Defined.

(** With every field absent the prompt reads undefined in their places. *)
Example resume_prompt_of_no_fields :
  requests (serve bonjour GenerateResumeSummary no_fields)
  = [(TEXT_MODEL_NAME,
      CString (lit "Generate a concise, impactful professional summary for a undefined with undefined experience. Incorporate this existing information: "
                 ++ [DQUOTE] ++ lit "undefined" ++ [DQUOTE]
                 ++ lit ". Focus on achievements and relevant skills. Keep it to 3-5 sentences."))].
Proof. reflexivity. Qed.

Lemma image_media_type_witness :
  attachment_types (serve bonjour AnalyzeImage png_image) = [Some (str "image/png")].
Proof.
  apply (proj2 (@image_media_type sample_engine bonjour png_image) (lit "image/png"));
    [discriminate | reflexivity].
Defined.

Lemma empty_image_data_is_400_witness :
  field empty_image imageData = Some (JStr [])
  /\ responses (serve bonjour AnalyzeImage empty_image)
     = [(400%N, [(lit "error", JStr (lit "Missing image data in request."))])]
  /\ calls (serve bonjour AnalyzeImage empty_image) = [].
Proof.
  split; [reflexivity |].
  apply (@empty_image_data_is_400 sample_engine bonjour empty_image). reflexivity.
Defined.

(** ** Starting the server *)

(** X18.  Without an API key, absent or empty, loading the module prints an
    error and exits with status 1 as its last act: no provider client is
    created, no route is registered and the server never listens. *)
Theorem no_api_key_no_server (env : environment) :
  env (lit "GEMINI_API_KEY") = None \/ env (lit "GEMINI_API_KEY") = Some [] ->
  exits (boot env) = [1%N]
  /\ last (boot env) (Mounted Cors) = Exited 1
  /\ (exists msg, In (ConsoleError msg) (boot env))
  /\ (forall key, ~ In (ClientCreated key) (boot env))
  /\ routed_operations (boot env) = []
  /\ listens (boot env) = [].
Proof.
  intros Hkey. unfold boot.
  assert (Hboot :
    match env (lit "GEMINI_API_KEY") with
    | Some (c :: key) =>
        ClientCreated (c :: key)
        :: map (fun r => Routed (fst r) (snd r)) routes ++ [Listen (port_of env)]
    | _ =>
        [ConsoleError (lit "Error: GEMINI_API_KEY is not set in the .env file. Please check your .env file.");
         Exited 1]
    end
    = [ConsoleError (lit "Error: GEMINI_API_KEY is not set in the .env file. Please check your .env file.");
       Exited 1]).
  { destruct Hkey as [-> | ->]; reflexivity. }
  cbv zeta. rewrite Hboot. simpl.
  repeat split; try reflexivity.
  - eexists. right; right; left. reflexivity.
  - intros key [H | [H | [H | [H | []]]]]; discriminate H.
Qed.

(** X19.  With a non-empty API key the module never exits: it creates the
    provider client with the key as it is, registers the six routes in the
    order of the file, one for each operation, and calls listen last.  The
    port is the PORT variable, as the string it is, when that is non-empty,
    and the number 3000 otherwise, which the start-up message prints as
    3000. *)
Theorem api_key_starts_the_server (env : environment) (c : N) (key : jsstring) :
  env (lit "GEMINI_API_KEY") = Some (c :: key) ->
  exits (boot env) = []
  /\ In (ClientCreated (c :: key)) (boot env)
  /\ routed_operations (boot env)
     = [Translate; Summarize; AnalyzeImage; AnalyzeAudio;
        GenerateResumeSummary; OptimizeSkills]
  /\ listens (boot env)
     = [match env (lit "PORT") with
        | Some (d :: s) => PortString (d :: s)
        | _ => PortNumber 3000
        end]
  /\ last (boot env) (Mounted Cors) = Listen (port_of env)
  /\ (env (lit "PORT") = None \/ env (lit "PORT") = Some [] ->
      hd_error (listening (port_of env))
      = Some (lit "Backend server listening at http://localhost:3000")).
Proof.
  intros Hkey. unfold boot. cbv zeta. rewrite Hkey.
  repeat split; try reflexivity.
  - right; right; left. reflexivity.
  - intros [Hport | Hport]; unfold port_of; rewrite Hport; reflexivity.
Qed.

(** ** The further properties at sample requests *)

Lemma object_is_not_convertible :
  ~ @convertible sample_engine (Some (JObj [(lit "toString", JNull)])).
Proof. intros [s H]. discriminate H. Qed.

Lemma request_is_always_answered_witness :
  settles out_of_quota Translate hello_translate = inr tt
  /\ List.length (responses (serve out_of_quota Translate hello_translate)) = 1.
Proof.
  apply (@request_is_always_answered sample_engine out_of_quota Translate
           hello_translate).
  left. reflexivity.
Defined.

Lemma every_response_is_an_envelope_witness :
  (200%N = 200%N
   /\ map fst [(lit "translatedText", str "Bonjour")] = success_keys Translate
   /\ Forall (fun kv => is_text (snd kv)) [(lit "translatedText", str "Bonjour")])
  \/ (200%N = 400%N
      /\ [(lit "translatedText", str "Bonjour")]
         = [(lit "error", JStr (missing_message Translate))]
      /\ required Translate <> [])
  \/ (200%N = 500%N
      /\ exists e, [(lit "translatedText", str "Bonjour")]
                   = [(lit "error", JStr (failure_message Translate));
                      (lit "details", JStr (err_message e))]).
Proof.
  apply (@every_response_is_an_envelope sample_engine bonjour Translate
           hello_translate).
  left. reflexivity.
Defined.

Lemma failed_call_is_the_last_call_witness :
  List.length (calls (serve one_answer Summarize brief_request)) = 2.
Proof.
  eapply (@failed_call_is_the_last_call sample_engine one_answer Summarize
            brief_request 1).
  reflexivity.
Defined.

Lemma server_error_has_a_cause_witness :
  (exists m c e,
      In (m, c, inl e) (calls (serve one_answer Summarize brief_request))
      /\ failure_envelope (failure_message Summarize) (err_message quota_error)
         = failure_envelope (failure_message Summarize) (err_message e))
  \/ (Summarize = Translate
      /\ calls (serve one_answer Summarize brief_request) = []
      /\ failure_envelope (failure_message Summarize) (err_message quota_error)
         = failure_envelope (failure_message Translate) to_primitive_message
      /\ exists f, In f (substituted Translate)
                   /\ ~ convertible (field brief_request f)).
Proof.
  apply (@server_error_has_a_cause sample_engine one_answer Summarize brief_request).
  left. reflexivity.
Defined.

Lemma translate_conversion_error_is_500_witness :
  responses (serve bonjour Translate translate_from_object)
  = [(500%N, [(lit "error", JStr (failure_message Translate));
              (lit "details", JStr (lit "Cannot convert object to primitive value"))])]
  /\ calls (serve bonjour Translate translate_from_object) = [].
Proof.
  apply (@translate_conversion_error_is_500 sample_engine bonjour
           translate_from_object fromLang).
  - intros g [<- | [<- | [<- | []]]]; reflexivity.
  - simpl. auto.
  - exact object_is_not_convertible.
Defined.

Lemma conversion_error_outside_try_is_unhandled_witness :
  serve bonjour Summarize summarize_object = []
  /\ settles bonjour Summarize summarize_object = inl type_error.
Proof.
  apply (@conversion_error_outside_try_is_unhandled sample_engine bonjour
           Summarize summarize_object text).
  - reflexivity.
  - intros g [<- | [<- | []]]; reflexivity.
  - simpl. auto.
  - intros [s H]. discriminate H.
Defined.

Lemma handler_reads_only_its_inputs_witness :
  serve bonjour Translate hello_translate
  = serve bonjour Translate hello_translate_reordered
  /\ settles bonjour Translate hello_translate
     = settles bonjour Translate hello_translate_reordered.
Proof.
  apply (@handler_reads_only_its_inputs sample_engine bonjour Translate
           hello_translate hello_translate_reordered).
  intros f [<- | [<- | [<- | []]]]; reflexivity.
Defined.

Lemma blank_output_gives_empty_text_witness :
  [(lit "summary", JStr []); (lit "keyPoints", JStr [])] <> []
  /\ Forall (fun kv => snd kv = @JStr sample_engine [])
            [(lit "summary", JStr []); (lit "keyPoints", JStr [])].
Proof.
  apply (@blank_output_gives_empty_text sample_engine blank Summarize brief_request).
  - discriminate.
  - left. reflexivity.
  - intros m c raw [H | [H | []]]; inversion H; reflexivity.
Defined.

Lemma image_is_forwarded_as_received_witness :
  exists o,
    calls (serve bonjour AnalyzeImage odd_image)
    = [(VISION_MODEL_NAME,
        CParts [PText image_prompt;
                PInlineData (Some (JNum 7%N)) (Some (str "image/jpeg"))],
        o)].
Proof.
  apply (@image_is_forwarded_as_received sample_engine bonjour odd_image).
  reflexivity.
Defined.

Lemma translate_prompt_of_strings_witness :
  requests (serve bonjour Translate hello_translate)
  = [(TEXT_MODEL_NAME,
      CString (lit "Translate the following text from " ++ lit "English"
                 ++ lit " to " ++ lit "French"
                 ++ lit ". Only provide the translated text, nothing else."
                 ++ [LF] ++ lit "Text: " ++ [DQUOTE] ++ lit "Hello" ++ [DQUOTE]))].
Proof.
  apply (@translate_prompt_of_strings sample_engine bonjour hello_translate);
    first [reflexivity | discriminate].
Defined.

Lemma no_api_key_no_server_witness :
  exits (boot bare_environment) = [1%N]
  /\ last (boot bare_environment) (Mounted Cors) = Exited 1
  /\ (exists msg, In (ConsoleError msg) (boot bare_environment))
  /\ (forall key, ~ In (ClientCreated key) (boot bare_environment))
  /\ routed_operations (boot bare_environment) = []
  /\ listens (boot bare_environment) = [].
Proof.
  apply (no_api_key_no_server bare_environment). left. reflexivity.
Defined.

Lemma api_key_starts_the_server_witness :
  exits (boot keyed_environment) = []
  /\ listens (boot keyed_environment) = [PortNumber 3000].
Proof.
  destruct (@api_key_starts_the_server keyed_environment 115%N (lit "ecret") eq_refl)
    as [Hexit [_ [_ [Hlisten _]]]].
  split; [exact Hexit | exact Hlisten].
Defined.

Lemma success_iff_all_calls_succeed_witness :
  (exists pl, In (200%N, pl) (responses (serve bonjour Translate hello_translate)))
  <-> (calls (serve bonjour Translate hello_translate) <> []
       /\ forall m c e,
            ~ In (m, c, inl e) (calls (serve bonjour Translate hello_translate))).
Proof.
  apply (@success_iff_all_calls_succeed sample_engine bonjour Translate
           hello_translate).
  discriminate.
Defined.
